(** * Product catalogue: the Express resource API and the React client

    A shallow embedding of
    - [backend/routes/products.js]: the six route handlers of the product
      resource, over a model of the Mongoose collection they query;
    - [frontend/src/services/product-service.ts]: the in-memory mock service;
    - the [ProductPage] component: its filter effect and its submit and
      delete handlers;
    - [frontend/src/contexts/auth-context.tsx]: the demo [login]/[signup].

    The model comes first (modules [JS], [Client], [Server]); the lemmas
    about it, with the notions they are stated in, follow. *)

From Stdlib Require Import ZArith QArith Ascii String Bool.
From Stdlib Require Import Sorting.Mergesort Sorting.Sorted Orders.
From Stdlib Require Import HexadecimalString HexadecimalN.
From stdpp Require Import base list strings pretty gmap.

Open Scope Z_scope.

(* ===================================================================== *)
(** * JavaScript values and effects *)
(* ===================================================================== *)

Module JS.

(** A JavaScript [number]. The finite doubles are a subset of the rationals
    and [<=], [>=] compare them as rationals, so a finite value is carried
    as a [Q]; the three special values are kept apart because the client
    code writes [Infinity] and tests numbers for truthiness. *)
Inductive number : Type :=
  | Fin (q : Q)
  | Infinity
  | NegInfinity
  | NaN.

(** [a <= b] on numbers: false as soon as one side is [NaN]. *)
Definition le (a b : number) : bool :=
  match a, b with
  | NaN, _ | _, NaN => false
  | NegInfinity, _ => true
  | _, Infinity => true
  | Fin x, Fin y => Qle_bool x y
  | _, _ => false
  end.

(** [a >= b]. *)
Definition ge (a b : number) : bool := le b a.

(** Truthiness of a number: [0], [-0] and [NaN] are falsy. *)
Definition truthy (a : number) : bool :=
  match a with
  | Fin q => negb (Qeq_bool q 0)
  | NaN => false
  | Infinity | NegInfinity => true
  end.

(** [a || b] on numbers. *)
Definition or (a b : number) : number := if truthy a then a else b.

Definition ofZ (z : Z) : number := Fin (inject_Z z).

(** Truthiness of a string: only the empty string is falsy. *)
Definition truthy_string (s : string) : bool :=
  match s with
  | EmptyString => false
  | String _ _ => true
  end.

(** Truthiness of a [string | null]. *)
Definition truthy_nullable (o : option string) : bool :=
  match o with
  | None => false
  | Some s => truthy_string s
  end.

(** [String.prototype.toLowerCase], on the ASCII letters; the strings of
    this development are byte strings and every other byte is kept. *)
Definition lower_ascii (c : ascii) : ascii :=
  let n := nat_of_ascii c in
  if (65 <=? n)%nat && (n <=? 90)%nat then ascii_of_nat (n + 32) else c.

Fixpoint toLowerCase (s : string) : string :=
  match s with
  | EmptyString => EmptyString
  | String c t => String (lower_ascii c) (toLowerCase t)
  end.

(** [hay.includes(needle)]: [needle] occurs in [hay] at some offset. *)
Fixpoint includes (hay needle : string) : bool :=
  String.prefix needle hay ||
  match hay with
  | EmptyString => false
  | String _ t => includes t needle
  end.

(** [arr.findIndex(f)]: the index of the first element that satisfies [f],
    [-1] when there is none. *)
Fixpoint findIndex_from {A} (f : A -> bool) (arr : list A) (i : Z) : Z :=
  match arr with
  | [] => -1
  | x :: t => if f x then i else findIndex_from f t (i + 1)
  end.

Definition findIndex {A} (f : A -> bool) (arr : list A) : Z :=
  findIndex_from f arr 0.

(** [arr.splice(start, deleteCount)]: the array after the call. A negative
    [start] counts from the end; both arguments are clamped to the array. *)
Definition splice {A} (start deleteCount : Z) (arr : list A) : list A :=
  let len := Z.of_nat (length arr) in
  let from := if start <? 0 then Z.max (len + start) 0 else Z.min start len in
  let count := Z.min (Z.max deleteCount 0) (len - from) in
  take (Z.to_nat from) arr ++ drop (Z.to_nat (from + count)) arr.

(** [arr[i] = v] for an index inside the array (the only use the sources
    make of it). *)
Definition assign {A} (i : Z) (v : A) (arr : list A) : list A :=
  <[Z.to_nat i := v]> arr.

(** ** Computations that mutate a state and may throw

    An [async] function that awaits a rejected promise throws at the
    [await]; a settled promise is therefore an [outcome], and a computation
    returns its outcome together with the state it leaves behind, which is
    kept when it throws. *)
Inductive outcome (E A : Type) : Type :=
  | Ok (a : A)
  | Throw (e : E).
Arguments Ok {E A} a.
Arguments Throw {E A} e.

Definition M (S E A : Type) : Type := S -> outcome E A * S.

Definition ret {S E A} (a : A) : M S E A := fun s => (Ok a, s).

Definition bind {S E A B} (m : M S E A) (k : A -> M S E B) : M S E B :=
  fun s =>
    match m s with
    | (Ok a, s') => k a s'
    | (Throw e, s') => (Throw e, s')
    end.

(** [try { m } catch (e) { h e }]. *)
Definition try_catch {S E A} (m : M S E A) (h : E -> M S E A) : M S E A :=
  fun s =>
    match m s with
    | (Ok a, s') => (Ok a, s')
    | (Throw e, s') => h e s'
    end.

(** [try { m } finally { f }], for an [f] that does not throw. *)
Definition finally {S E A} (m : M S E A) (f : S -> S) : M S E A :=
  fun s => let '(r, s') := m s in (r, f s').

Definition modify {S E} (f : S -> S) : M S E unit := fun s => (Ok tt, f s).

End JS.

Declare Scope js_scope.
Delimit Scope js_scope with js.
Notation "x <- m ;; k" := (JS.bind m (fun x => k))
  (at level 100, m at next level, right associativity) : js_scope.
Notation "m ;;; k" := (JS.bind m (fun _ => k))
  (at level 100, right associativity) : js_scope.

(* ===================================================================== *)
(** * The client: [types], [product-service.ts], [ProductPage], [auth-context] *)
(* ===================================================================== *)

Module Client.

Local Open Scope string_scope.
Local Open Scope list_scope.

(** ** The client's types *)

Module User.
Record t : Type := mk { id : string; email : string }.
End User.

Module Product.
Record t : Type := mk {
  id : string;
  name : string;
  description : string;
  category : string;
  price : JS.number;
  rating : JS.number;
  createdAt : string;
  updatedAt : string
}.
End Product.

Module ProductFormData.
Record t : Type := mk {
  name : string;
  description : string;
  category : string;
  price : JS.number;
  rating : JS.number
}.
End ProductFormData.

(** A field of type [T | null] is an [option T]. *)
Module FilterOptions.
Record t : Type := mk {
  category : option string;
  minPrice : option JS.number;
  maxPrice : option JS.number;
  minRating : option JS.number;
  search : string
}.
End FilterOptions.

(** ** [product-service.ts]: the mock service over the array [mockProducts]

    The state of the service is the module-level array; a rejected promise
    carries the message of its [Error]. *)

Definition Service (A : Type) : Type := JS.M (list Product.t) string A.

Module ProductService.

Definition product (id name description category : string) (price : Z)
    (rating : Q) (at_ : string) : Product.t :=
  Product.mk id name description category (JS.ofZ price) (JS.Fin rating) at_ at_.

Definition mockProducts : list Product.t := [
  product "1" "Apple MacBook Pro" "High-performance laptop for professionals"
    "Electronics" 1999 4.5 "2023-01-15T08:00:00Z";
  product "2" "Sony Wireless Headphones" "Noise-cancelling over-ear headphones"
    "Audio" 349 4.8 "2023-02-10T10:30:00Z";
  product "3" "Samsung 4K Smart TV" "65-inch QLED display with smart features"
    "Electronics" 1299 4.3 "2023-03-05T14:15:00Z";
  product "4" "Ergonomic Office Chair" "Adjustable chair with lumbar support"
    "Furniture" 299 4.0 "2023-03-20T09:45:00Z";
  product "5" "Canon DSLR Camera" "Professional camera with 24MP sensor"
    "Photography" 899 4.7 "2023-04-12T11:20:00Z";
  product "6" "Fitness Tracker Watch" "Waterproof smartwatch with health tracking"
    "Wearables" 149 3.9 "2023-05-05T16:10:00Z";
  product "7" "Professional Knife Set" "8-piece chef's knife collection"
    "Kitchen" 179 4.2 "2023-06-18T13:25:00Z";
  product "8" "Wireless Gaming Mouse" "High-precision mouse with programmable buttons"
    "Gaming" 89 4.6 "2023-07-22T15:40:00Z"
].

(** The product every field of which is [undefined]: what reading the
    array outside its bounds would spread. [updateProduct] reads at an index
    [findIndex] returned, which is inside the bounds. *)
#[export] Instance undefined_product : Inhabited Product.t :=
  populate (Product.mk EmptyString EmptyString EmptyString EmptyString
              JS.NaN JS.NaN EmptyString EmptyString).

(** [{ id, ...productData, createdAt, updatedAt }]. *)
Definition newProduct (id : string) (productData : ProductFormData.t)
    (createdAt updatedAt : string) : Product.t :=
  {| Product.id := id;
     Product.name := ProductFormData.name productData;
     Product.description := ProductFormData.description productData;
     Product.category := ProductFormData.category productData;
     Product.price := ProductFormData.price productData;
     Product.rating := ProductFormData.rating productData;
     Product.createdAt := createdAt;
     Product.updatedAt := updatedAt |}.

(** [{ ...old, ...productData, updatedAt }]. *)
Definition spread (old : Product.t) (productData : ProductFormData.t)
    (updatedAt : string) : Product.t :=
  {| Product.id := Product.id old;
     Product.name := ProductFormData.name productData;
     Product.description := ProductFormData.description productData;
     Product.category := ProductFormData.category productData;
     Product.price := ProductFormData.price productData;
     Product.rating := ProductFormData.rating productData;
     Product.createdAt := Product.createdAt old;
     Product.updatedAt := updatedAt |}.

Definition has_id (id : string) (p : Product.t) : bool :=
  String.eqb (Product.id p) id.

(** [getProductById]: [mockProducts.find(p => p.id === id)]. *)
Definition getProductById (id : string) : Service (option Product.t) :=
  fun mockProducts => (JS.Ok (List.find (has_id id) mockProducts), mockProducts).

(** [createProduct]. [random] is [Math.floor(Math.random() * 10000)] and the
    two dates are the two readings of the clock the object literal makes. *)
Definition createProduct (random : N) (now1 now2 : string)
    (productData : ProductFormData.t) : Service Product.t :=
  let newProduct := newProduct (pretty random) productData now1 now2 in
  fun mockProducts => (JS.Ok newProduct, mockProducts ++ [newProduct]).

(** [updateProduct]. *)
Definition updateProduct (now : string) (id : string)
    (productData : ProductFormData.t) : Service Product.t :=
  fun mockProducts =>
    let index := JS.findIndex (has_id id) mockProducts in
    if negb (index =? -1)%Z then
      let updatedProduct :=
        spread (mockProducts !!! Z.to_nat index) productData now in
      (JS.Ok updatedProduct, JS.assign index updatedProduct mockProducts)
    else
      (JS.Throw "Product not found", mockProducts).

(** [deleteProduct]. *)
Definition deleteProduct (id : string) : Service bool :=
  fun mockProducts =>
    let index := JS.findIndex (has_id id) mockProducts in
    if negb (index =? -1)%Z then
      (JS.Ok true, JS.splice index 1 mockProducts)
    else
      (JS.Throw "Product not found", mockProducts).

(** [Array.from(new Set(xs))]: the first occurrence of every value, in
    order. *)
Fixpoint distinct (seen xs : list string) : list string :=
  match xs with
  | [] => []
  | x :: t =>
      if existsb (String.eqb x) seen then distinct seen t
      else x :: distinct (x :: seen) t
  end.

(** [getCategories]. *)
Definition getCategories : Service (list string) :=
  fun mockProducts =>
    (JS.Ok (distinct [] (List.map Product.category mockProducts)), mockProducts).

End ProductService.

(** ** [ProductPage] *)

(** An array the page holds is either the service's own array (what the mock
    [getProducts] resolves with: the object [mockProducts] itself, which the
    service goes on mutating) or an array of the page's own, as spreading,
    [map] and [filter] build. *)
Inductive ArrayRef : Type :=
  | TheStore
  | Own (arr : list Product.t).

(** The functions the page imports from [@/services/product-service]. *)
Module Api.
Record t : Type := mk {
  getProducts : Service ArrayRef;
  getCategories : Service (list string);
  createProduct : ProductFormData.t -> Service Product.t;
  updateProduct : string -> ProductFormData.t -> Service Product.t;
  deleteProduct : string -> Service bool
}.
End Api.

(** The mock service as the page sees it, at given readings of the clock
    and of [Math.random]. *)
Definition mockApi (random : N) (now1 now2 now : string) : Api.t :=
  {| Api.getProducts := JS.ret TheStore;
     Api.getCategories := ProductService.getCategories;
     Api.createProduct := ProductService.createProduct random now1 now2;
     Api.updateProduct := ProductService.updateProduct now;
     Api.deleteProduct := ProductService.deleteProduct |}.

Inductive ToastKind : Type := success | error | info.

(** The state of the component ([viewMode] and the router, which none of
    the handlers below reads, are left out) and the toasts it has raised. *)
Record Page : Type := mkPage {
  products : ArrayRef;
  filteredProducts : ArrayRef;
  categories : list string;
  filters : FilterOptions.t;
  isLoading : bool;
  isFormOpen : bool;
  isDeleteDialogOpen : bool;
  currentProduct : option Product.t;
  productToDelete : option string;
  isSubmitting : bool;
  toasts : list (ToastKind * string)
}.

Definition initialPage : Page :=
  {| products := Own [];
     filteredProducts := Own [];
     categories := [];
     filters := FilterOptions.mk None None None None EmptyString;
     isLoading := true;
     isFormOpen := false;
     isDeleteDialogOpen := false;
     currentProduct := None;
     productToDelete := None;
     isSubmitting := false;
     toasts := [] |}.

Definition setProducts (v : ArrayRef) (p : Page) : Page :=
  mkPage v (filteredProducts p) (categories p) (filters p) (isLoading p)
    (isFormOpen p) (isDeleteDialogOpen p) (currentProduct p)
    (productToDelete p) (isSubmitting p) (toasts p).

Definition setFilteredProducts (v : ArrayRef) (p : Page) : Page :=
  mkPage (products p) v (categories p) (filters p) (isLoading p)
    (isFormOpen p) (isDeleteDialogOpen p) (currentProduct p)
    (productToDelete p) (isSubmitting p) (toasts p).

Definition setCategories (v : list string) (p : Page) : Page :=
  mkPage (products p) (filteredProducts p) v (filters p) (isLoading p)
    (isFormOpen p) (isDeleteDialogOpen p) (currentProduct p)
    (productToDelete p) (isSubmitting p) (toasts p).

Definition setFilters (v : FilterOptions.t) (p : Page) : Page :=
  mkPage (products p) (filteredProducts p) (categories p) v (isLoading p)
    (isFormOpen p) (isDeleteDialogOpen p) (currentProduct p)
    (productToDelete p) (isSubmitting p) (toasts p).

Definition setIsLoading (v : bool) (p : Page) : Page :=
  mkPage (products p) (filteredProducts p) (categories p) (filters p) v
    (isFormOpen p) (isDeleteDialogOpen p) (currentProduct p)
    (productToDelete p) (isSubmitting p) (toasts p).

Definition setIsFormOpen (v : bool) (p : Page) : Page :=
  mkPage (products p) (filteredProducts p) (categories p) (filters p)
    (isLoading p) v (isDeleteDialogOpen p) (currentProduct p)
    (productToDelete p) (isSubmitting p) (toasts p).

Definition setIsDeleteDialogOpen (v : bool) (p : Page) : Page :=
  mkPage (products p) (filteredProducts p) (categories p) (filters p)
    (isLoading p) (isFormOpen p) v (currentProduct p)
    (productToDelete p) (isSubmitting p) (toasts p).

Definition setCurrentProduct (v : option Product.t) (p : Page) : Page :=
  mkPage (products p) (filteredProducts p) (categories p) (filters p)
    (isLoading p) (isFormOpen p) (isDeleteDialogOpen p) v
    (productToDelete p) (isSubmitting p) (toasts p).

Definition setProductToDelete (v : option string) (p : Page) : Page :=
  mkPage (products p) (filteredProducts p) (categories p) (filters p)
    (isLoading p) (isFormOpen p) (isDeleteDialogOpen p) (currentProduct p)
    v (isSubmitting p) (toasts p).

Definition setIsSubmitting (v : bool) (p : Page) : Page :=
  mkPage (products p) (filteredProducts p) (categories p) (filters p)
    (isLoading p) (isFormOpen p) (isDeleteDialogOpen p) (currentProduct p)
    (productToDelete p) v (toasts p).

Definition toast (k : ToastKind) (message : string) (p : Page) : Page :=
  mkPage (products p) (filteredProducts p) (categories p) (filters p)
    (isLoading p) (isFormOpen p) (isDeleteDialogOpen p) (currentProduct p)
    (productToDelete p) (isSubmitting p) (toasts p ++ [(k, message)]).

(** The page runs against the service: the world is the service's array
    and the component's state. *)
Record World : Type := mkWorld {
  store : list Product.t;
  page : Page
}.

Definition Handler (A : Type) : Type := JS.M World string A.

(** The array a reference stands for. *)
Definition read (r : ArrayRef) (w : World) : list Product.t :=
  match r with
  | TheStore => store w
  | Own arr => arr
  end.

(** The product list the page holds. *)
Definition shown (w : World) : list Product.t := read (products (page w)) w.

(** [await call]: the call runs on the service's array; a rejection is
    thrown. *)
Definition await {A} (call : Service A) : Handler A :=
  fun w => let '(r, s) := call (store w) in (r, mkWorld s (page w)).

Definition setState (f : Page -> Page) : Handler unit :=
  JS.modify (fun w => mkWorld (store w) (f (page w))).

(** [setProducts(prevProducts => f prevProducts)]: [f] builds a new array. *)
Definition updateProducts (f : list Product.t -> list Product.t) : Handler unit :=
  JS.modify (fun w => mkWorld (store w) (setProducts (Own (f (shown w))) (page w))).

(** [a === b] for a string [a] and a [string | null] [b]. *)
Definition strict_eq (a : string) (b : option string) : bool :=
  match b with
  | Some s => String.eqb a s
  | None => false
  end.

(** The body of the filter effect: the array it passes to
    [setFilteredProducts]. *)
Definition applyFilters (filters : FilterOptions.t) (products : list Product.t)
    : list Product.t :=
  let result := products in
  let result :=
    if JS.truthy_nullable (FilterOptions.category filters) then
      List.filter
        (fun product =>
           strict_eq (Product.category product) (FilterOptions.category filters))
        result
    else result in
  let result :=
    match FilterOptions.minPrice filters with
    | Some minPrice =>
        List.filter
          (fun product =>
             JS.ge (Product.price product) (JS.or minPrice (JS.ofZ 0)))
          result
    | None => result
    end in
  let result :=
    match FilterOptions.maxPrice filters with
    | Some maxPrice =>
        List.filter
          (fun product =>
             JS.le (Product.price product) (JS.or maxPrice JS.Infinity))
          result
    | None => result
    end in
  let result :=
    match FilterOptions.minRating filters with
    | Some minRating =>
        List.filter
          (fun product =>
             JS.ge (Product.rating product) (JS.or minRating (JS.ofZ 0)))
          result
    | None => result
    end in
  let result :=
    if JS.truthy_string (FilterOptions.search filters) then
      let searchTerm := JS.toLowerCase (FilterOptions.search filters) in
      List.filter
        (fun product =>
           JS.includes (JS.toLowerCase (Product.name product)) searchTerm
           || JS.includes (JS.toLowerCase (Product.description product)) searchTerm)
        result
    else result in
  result.

(** The criteria as section 4.3 of the specification words them, to be
    compared with [applyFilters]. A category is set when it is a non-empty
    string, a bound is set when it is not [null], the search term is active
    when it is not empty; a product satisfies the filter when it meets every
    criterion that is set. *)
Definition satisfies (filters : FilterOptions.t) (product : Product.t) : bool :=
  (if JS.truthy_nullable (FilterOptions.category filters)
   then strict_eq (Product.category product) (FilterOptions.category filters)
   else true)
  && match FilterOptions.minPrice filters with
     | Some minPrice => JS.ge (Product.price product) minPrice
     | None => true
     end
  && match FilterOptions.maxPrice filters with
     | Some maxPrice => JS.le (Product.price product) maxPrice
     | None => true
     end
  && match FilterOptions.minRating filters with
     | Some minRating => JS.ge (Product.rating product) minRating
     | None => true
     end
  && (if JS.truthy_string (FilterOptions.search filters)
      then JS.includes (JS.toLowerCase (Product.name product))
             (JS.toLowerCase (FilterOptions.search filters))
           || JS.includes (JS.toLowerCase (Product.description product))
                (JS.toLowerCase (FilterOptions.search filters))
      else true).

(** The filter effect, which React runs whenever [filters] or [products]
    changed. *)
Definition filterEffect (w : World) : World :=
  mkWorld (store w)
    (setFilteredProducts (Own (applyFilters (filters (page w)) (shown w))) (page w)).

(** The mount effect [loadData]. *)
Definition loadData (api : Api.t) : Handler unit :=
  JS.finally
    (JS.try_catch
       (setState (setIsLoading true) ;;;
        productsData <- await (Api.getProducts api) ;;
        categoriesData <- await (Api.getCategories api) ;;
        setState (setProducts productsData) ;;;
        setState (setFilteredProducts productsData) ;;;
        setState (setCategories categoriesData))%js
       (fun _ => setState (toast error "Failed to load products")))
    (fun w => mkWorld (store w) (setIsLoading false (page w))).

(** [handleProductSubmit]. [currentProduct] is the value the handler closed
    over when the component rendered. *)
Definition handleProductSubmit (api : Api.t) (data : ProductFormData.t)
    : Handler unit :=
  fun w0 =>
  let currentProduct := currentProduct (page w0) in
  JS.finally
    (JS.try_catch
       (setState (setIsSubmitting true) ;;;
        match currentProduct with
        | Some currentProduct =>
            updatedProduct <-
              await (Api.updateProduct api (Product.id currentProduct) data) ;;
            updateProducts
              (List.map (fun p =>
                 if String.eqb (Product.id p) (Product.id currentProduct)
                 then updatedProduct else p)) ;;;
            setState (toast success "Product updated successfully")
        | None =>
            updatedProduct <- await (Api.createProduct api data) ;;
            updateProducts (fun prevProducts => prevProducts ++ [updatedProduct]) ;;;
            setState (toast success "Product created successfully")
        end ;;;
        setState (setIsFormOpen false))%js
       (fun _ =>
          setState (toast error
            (match currentProduct with
             | Some _ => "Failed to update product"
             | None => "Failed to create product"
             end))))
    (fun w => mkWorld (store w) (setIsSubmitting false (page w)))
    w0.

(** [confirmDelete]. [productToDelete] is the value the handler closed
    over; [!productToDelete] holds of [null] and of the empty string. *)
Definition confirmDelete (api : Api.t) : Handler unit :=
  fun w0 =>
  match productToDelete (page w0) with
  | None => JS.ret tt w0
  | Some productToDelete =>
      if negb (JS.truthy_string productToDelete) then JS.ret tt w0
      else
        JS.finally
          (JS.try_catch
             (await (Api.deleteProduct api productToDelete) ;;;
              updateProducts
                (List.filter (fun p =>
                   negb (String.eqb (Product.id p) productToDelete))) ;;;
              setState (toast success "Product deleted successfully"))%js
             (fun _ => setState (toast error "Failed to delete product")))
          (fun w =>
             mkWorld (store w)
               (setProductToDelete None (setIsDeleteDialogOpen false (page w))))
          w0
  end.

(** ** [auth-context.tsx]: the demo [AuthProvider] *)

Module Auth.

(** The provider's state, the browser's [localStorage] (a map from keys to
    strings) and the toasts. *)
Record State : Type := mk {
  user : option User.t;
  token : option string;
  isLoading : bool;
  localStorage : gmap string string;
  toasts : list (ToastKind * string)
}.

(** The state once the storage has taken a write. *)
Definition stored (key value : string) (s : State) : State :=
  mk (user s) (token s) (isLoading s) (<[key := value]> (localStorage s)) (toasts s).

Definition removeItem (key : string) (s : State) : State :=
  mk (user s) (token s) (isLoading s) (delete key (localStorage s)) (toasts s).

Definition setUser (v : option User.t) (s : State) : State :=
  mk v (token s) (isLoading s) (localStorage s) (toasts s).

Definition setToken (v : option string) (s : State) : State :=
  mk (user s) v (isLoading s) (localStorage s) (toasts s).

Definition toast (k : ToastKind) (message : string) (s : State) : State :=
  mk (user s) (token s) (isLoading s) (localStorage s) (toasts s ++ [(k, message)]).

Section AuthProvider.

(** [JSON.stringify] on a user object. *)
Variable stringify : User.t -> string.

(** Whether the browser's storage, holding the given entries, takes the
    write of a value under a key. It does not when the quota is exceeded or
    when the storage is disabled. *)
Variable accepts : gmap string string -> string -> string -> bool.

(** [localStorage.setItem(key, value)]: throws where the storage does not
    take the write, and then stores nothing. *)
Definition setItem (key value : string) : JS.M State string unit :=
  fun s =>
    if accepts (localStorage s) key value then (JS.Ok tt, stored key value s)
    else (JS.Throw "QuotaExceededError", s).

(** [login]. [random] is [Math.random().toString(36).substring(2)]. *)
Definition login (random : string) (email password : string)
    : JS.M State string bool :=
  JS.try_catch
    (let mockUser := {| User.id := "1"; User.email := email |} in
     let mockToken := "mock_jwt_token_" +:+ random in
     setItem "jwt_token" mockToken ;;;
     setItem "user" (stringify mockUser) ;;;
     JS.modify (setUser (Some mockUser)) ;;;
     JS.modify (setToken (Some mockToken)) ;;;
     JS.modify (toast success "Login successful!") ;;;
     JS.ret true)%js
    (fun _ =>
       (JS.modify (toast error "Login failed. Please check your credentials.") ;;;
        JS.ret false)%js).

(** [signup]. *)
Definition signup (random : string) (email password : string)
    : JS.M State string bool :=
  JS.try_catch
    (let mockUser := {| User.id := "1"; User.email := email |} in
     let mockToken := "mock_jwt_token_" +:+ random in
     setItem "jwt_token" mockToken ;;;
     setItem "user" (stringify mockUser) ;;;
     JS.modify (setUser (Some mockUser)) ;;;
     JS.modify (setToken (Some mockToken)) ;;;
     JS.modify (toast success "Account created successfully!") ;;;
     JS.ret true)%js
    (fun _ =>
       (JS.modify (toast error "Signup failed. Please try again.") ;;;
        JS.ret false)%js).

(** [logout]. *)
Definition logout (s : State) : State :=
  toast info "You've been logged out"
    (setToken None (setUser None (removeItem "user" (removeItem "jwt_token" s)))).

End AuthProvider.

End Auth.

End Client.

(* ===================================================================== *)
(** * The server: [backend/routes/products.js] *)
(* ===================================================================== *)

Module Server.

Local Open Scope string_scope.
Local Open Scope list_scope.
Local Open Scope Z_scope.

(** ** The collection the routes query *)

(** An [ObjectId] is a 12-byte value; it is carried as the number it
    encodes. *)
Definition ObjectId : Type := N.

(** Modelled from the spec: [models/Product.js] is not among the sources.
    The document has the fields of the data model (section 3); [createdBy]
    holds the identifier of the owning user as the verified token carries
    it, and the two timestamps are milliseconds since the epoch, as
    [Date.now()] returns them. *)
Module Product.
Record t : Type := mk {
  _id : ObjectId;
  name : string;
  description : string;
  price : JS.number;
  imageUrl : string;
  category : string;
  inStock : bool;
  createdBy : string;
  createdAt : Z;
  updatedAt : Z
}.
End Product.

(** The fields a handler destructures from [req.body]. *)
Module Body.
Record t : Type := mk {
  name : string;
  description : string;
  price : JS.number;
  imageUrl : string;
  category : string;
  inStock : bool
}.
End Body.

(** What Mongoose and the schema decide and the routes only rely on: how a
    path parameter is cast to an [ObjectId] ([None]: the cast fails), how an
    [ObjectId] is written in a response, and which new documents pass the
    schema's validators. An id written by [toString] casts back to itself. *)
Class Schema : Type := {
  castObjectId : string -> option ObjectId;
  toString : ObjectId -> string;
  validate : Body.t -> bool;
  cast_toString : forall oid, castObjectId (toString oid) = Some oid
}.

(** A schema to run the routes with: ids are written in hexadecimal, and a
    new document is valid when its name and description are not empty and
    its price is not negative (the data model of section 3). *)
#[export, refine] Instance hexSchema : Schema := {|
  castObjectId id :=
    N.of_hex_uint <$> HexadecimalString.NilEmpty.uint_of_string id;
  toString oid := HexadecimalString.NilEmpty.string_of_uint (N.to_hex_uint oid);
  validate body :=
    JS.truthy_string (Body.name body)
    && JS.truthy_string (Body.description body)
    && JS.le (JS.ofZ 0) (Body.price body)
|}.
Proof.
  intros oid. rewrite HexadecimalString.NilEmpty.usu. simpl.
  rewrite HexadecimalN.Unsigned.of_to. reflexivity.
Defined.

(** What a Mongoose call throws: the routes read [error.kind] only. *)
Record Error : Type := mkError {
  errorName : string;
  kind : option string
}.

Definition CastError : Error := mkError "CastError" (Some "ObjectId").
Definition ValidationError : Error := mkError "ValidationError" None.

(** The server: the documents of the collection in insertion order, the
    next [ObjectId] the driver generates (ids are never issued twice) and
    the clock [Date.now()] reads. *)
Record State : Type := mkState {
  collection : list Product.t;
  nextId : ObjectId;
  clock : Z
}.

Definition Mongoose (A : Type) : Type := JS.M State Error A.

Definition has_id (oid : ObjectId) (p : Product.t) : bool :=
  N.eqb (Product._id p) oid.

(** [Date.now()]. *)
Definition Date_now : Mongoose Z := fun s => (JS.Ok (clock s), s).

Section Model.

Context `{Schema}.

(** [Product.findById(id)]: throws a [CastError] of kind [ObjectId] when
    [id] is not an ObjectId, resolves with [null] when no document has it. *)
Definition findById (id : string) : Mongoose (option Product.t) :=
  fun s =>
    match castObjectId id with
    | None => (JS.Throw CastError, s)
    | Some oid => (JS.Ok (List.find (has_id oid) (collection s)), s)
    end.

(** Modelled from the spec: the schema of [models/Product.js] is not among
    the sources. A new document takes its six fields from the body, the
    caller as [createdBy], and the time of the insert as both timestamps
    (section 8: [createdAt == updatedAt]). *)
Definition newDocument (oid : ObjectId) (body : Body.t) (createdBy : string)
    (now : Z) : Product.t :=
  {| Product._id := oid;
     Product.name := Body.name body;
     Product.description := Body.description body;
     Product.price := Body.price body;
     Product.imageUrl := Body.imageUrl body;
     Product.category := Body.category body;
     Product.inStock := Body.inStock body;
     Product.createdBy := createdBy;
     Product.createdAt := now;
     Product.updatedAt := now |}.

(** [new Product({...}).save()]: validates the document, gives it a
    generated [_id] and appends it to the collection. *)
Definition save (body : Body.t) (createdBy : string) : Mongoose Product.t :=
  fun s =>
    if validate body then
      let product := newDocument (nextId s) body createdBy (clock s) in
      (JS.Ok product,
       mkState (collection s ++ [product]) (N.succ (nextId s)) (clock s))
    else (JS.Throw ValidationError, s).

(** The update document of [router.put]: the six fields of the body and
    [updatedAt]. *)
Definition applyUpdate (body : Body.t) (updatedAt : Z) (p : Product.t)
    : Product.t :=
  {| Product._id := Product._id p;
     Product.name := Body.name body;
     Product.description := Body.description body;
     Product.price := Body.price body;
     Product.imageUrl := Body.imageUrl body;
     Product.category := Body.category body;
     Product.inStock := Body.inStock body;
     Product.createdBy := Product.createdBy p;
     Product.createdAt := Product.createdAt p;
     Product.updatedAt := updatedAt |}.

(** Replace the first document that has the id. *)
Fixpoint updateOne (oid : ObjectId) (f : Product.t -> Product.t)
    (docs : list Product.t) : list Product.t :=
  match docs with
  | [] => []
  | p :: t => if has_id oid p then f p :: t else p :: updateOne oid f t
  end.

(** [Product.findByIdAndUpdate(id, update, { new: true })]: resolves with
    the document after the update, [null] when no document has the id. *)
Definition findByIdAndUpdate (id : string) (body : Body.t) (updatedAt : Z)
    : Mongoose (option Product.t) :=
  fun s =>
    match castObjectId id with
    | None => (JS.Throw CastError, s)
    | Some oid =>
        let docs := updateOne oid (applyUpdate body updatedAt) (collection s) in
        (JS.Ok (List.find (has_id oid) docs), mkState docs (nextId s) (clock s))
    end.

(** Remove the first document that has the id. *)
Fixpoint removeOne (oid : ObjectId) (docs : list Product.t) : list Product.t :=
  match docs with
  | [] => []
  | p :: t => if has_id oid p then t else p :: removeOne oid t
  end.

(** [product.deleteOne()]. *)
Definition deleteOne (product : Product.t) : Mongoose unit :=
  JS.modify (fun s =>
    mkState (removeOne (Product._id product) (collection s)) (nextId s) (clock s)).

End Model.

(** [.sort({ createdAt: -1 })]: [a] may come before [b] when [a] is not
    older than [b]. *)
Module CreatedAtDescending <: TotalLeBool.
Definition t : Type := Product.t.
Definition leb (a b : t) : bool := Product.createdAt b <=? Product.createdAt a.
Lemma leb_total : forall a b, leb a b = true \/ leb b a = true.
Proof. intros a b. unfold leb. rewrite !Z.leb_le. lia. Qed.
End CreatedAtDescending.

Module SortByCreatedAt := Sort CreatedAtDescending.

(** [Product.find(filter).sort({ createdAt: -1 })]. *)
Definition find (filter : Product.t -> bool) : Mongoose (list Product.t) :=
  fun s => (JS.Ok (SortByCreatedAt.sort (List.filter filter (collection s))), s).

(** ** The routes *)

(** What a handler reads of the request: [req.params.id], [req.body] and
    [req.user.id], which [verifyToken] set. *)
Record Request : Type := mkRequest {
  params_id : string;
  body : Body.t;
  user_id : string
}.

Inductive Json : Type :=
  | Products (products : list Product.t)
  | OneProduct (product : Product.t)
  | Message (message : string)
  | MessageProduct (message : string) (product : option Product.t).

Record Response : Type := mkResponse {
  status : Z;
  json : Json
}.

Definition Handler : Type := Request -> Mongoose Response.

(** The [catch] block of the three routes that take an id. *)
Definition catchObjectId (error : Error) : Mongoose Response :=
  if Client.strict_eq "ObjectId" (kind error) then
    JS.ret (mkResponse 404 (Message "Product not found"))
  else JS.ret (mkResponse 500 (Message "Server error")).

Definition serverError (error : Error) : Mongoose Response :=
  JS.ret (mkResponse 500 (Message "Server error")).

(** The calls the routes make on the Mongoose model [Product], which they
    [require], and on its documents. What a call resolves with, and what it
    throws, is the model's and the database's: the routes are written
    against any of them. [find] is the whole query, [.sort] included. *)
Module ProductModel.
Record t : Type := mk {
  find : (Product.t -> bool) -> Mongoose (list Product.t);
  findById : string -> Mongoose (option Product.t);
  save : Body.t -> string -> Mongoose Product.t;
  findByIdAndUpdate : string -> Body.t -> Z -> Mongoose (option Product.t);
  deleteOne : Product.t -> Mongoose unit
}.
End ProductModel.

Module Router.
Section Handlers.

Variable model : ProductModel.t.

(** [router.get('/')]. *)
Definition getAll : Handler := fun req =>
  JS.try_catch
    (products <- ProductModel.find model (fun _ => true) ;;
     JS.ret (mkResponse 200 (Products products)))%js
    serverError.

(** [router.get('/:id')]. *)
Definition getById : Handler := fun req =>
  JS.try_catch
    (product <- ProductModel.findById model (params_id req) ;;
     match product with
     | None => JS.ret (mkResponse 404 (Message "Product not found"))
     | Some product => JS.ret (mkResponse 200 (OneProduct product))
     end)%js
    catchObjectId.

(** [router.post('/')]. *)
Definition post : Handler := fun req =>
  JS.try_catch
    (product <- ProductModel.save model (body req) (user_id req) ;;
     JS.ret (mkResponse 201
               (MessageProduct "Product created successfully" (Some product))))%js
    serverError.

(** [router.put('/:id')]. *)
Definition put : Handler := fun req =>
  JS.try_catch
    (product <- ProductModel.findById model (params_id req) ;;
     match product with
     | None => JS.ret (mkResponse 404 (Message "Product not found"))
     | Some product =>
         if negb (String.eqb (Product.createdBy product) (user_id req)) then
           JS.ret (mkResponse 403 (Message "Not authorized to update this product"))
         else
           now <- Date_now ;;
           updatedProduct <- ProductModel.findByIdAndUpdate model (params_id req) (body req) now ;;
           JS.ret (mkResponse 200
                     (MessageProduct "Product updated successfully" updatedProduct))
     end)%js
    catchObjectId.

(** [router.delete('/:id')]. *)
Definition delete : Handler := fun req =>
  JS.try_catch
    (product <- ProductModel.findById model (params_id req) ;;
     match product with
     | None => JS.ret (mkResponse 404 (Message "Product not found"))
     | Some product =>
         if negb (String.eqb (Product.createdBy product) (user_id req)) then
           JS.ret (mkResponse 403 (Message "Not authorized to delete this product"))
         else
           ProductModel.deleteOne model product ;;;
           JS.ret (mkResponse 200 (Message "Product deleted successfully"))
     end)%js
    catchObjectId.

(** [router.get('/user/me')]. *)
Definition getMine : Handler := fun req =>
  JS.try_catch
    (products <-
       ProductModel.find model (fun p => String.eqb (Product.createdBy p) (user_id req)) ;;
     JS.ret (mkResponse 200 (Products products)))%js
    serverError.

End Handlers.
End Router.

Section Routes.

Context `{Schema}.

(** The model of this server. *)
Definition mongoose : ProductModel.t :=
  ProductModel.mk find findById save findByIdAndUpdate deleteOne.

(** [router.get('/')]. *)
Definition getAll : Handler := Router.getAll mongoose.

(** [router.get('/:id')]. *)
Definition getById : Handler := Router.getById mongoose.

(** [router.post('/')]. *)
Definition post : Handler := Router.post mongoose.

(** [router.put('/:id')]. *)
Definition put : Handler := Router.put mongoose.

(** [router.delete('/:id')]. *)
Definition delete : Handler := Router.delete mongoose.

(** [router.get('/user/me')]. *)
Definition getMine : Handler := Router.getMine mongoose.

End Routes.

(** ** The server over time

    Requests are served one after the other. Each has passed [verifyToken]
    (which is not among the sources): [caller] is the id it left in
    [req.user]. [elapsed] is the time that went by on the server's clock
    since the previous request; the clock does not run backwards. *)

Inductive Route : Type := GetAll | GetById | Post | Put | Delete | GetMine.

Record Call : Type := mkCall {
  elapsed : N;
  caller : string;
  route : Route;
  id : string;
  payload : Body.t
}.

Definition tick (elapsed : N) (s : State) : State :=
  mkState (collection s) (nextId s) (clock s + Z.of_N elapsed).

(** The handler of a route, over a model. *)
Definition handlerOver (model : ProductModel.t) (r : Route) : Handler :=
  match r with
  | GetAll => Router.getAll model
  | GetById => Router.getById model
  | Post => Router.post model
  | Put => Router.put model
  | Delete => Router.delete model
  | GetMine => Router.getMine model
  end.

Section Run.

Context `{Schema}.

Definition handler (r : Route) : Handler :=
  match r with
  | GetAll => getAll
  | GetById => getById
  | Post => post
  | Put => put
  | Delete => delete
  | GetMine => getMine
  end.

Definition serve (c : Call) (s : State) : JS.outcome Error Response * State :=
  handler (route c) (mkRequest (id c) (payload c) (caller c)) (tick (elapsed c) s).

Fixpoint run (calls : list Call) (s : State) : State :=
  match calls with
  | [] => s
  | c :: rest => run rest (snd (serve c s))
  end.

(** A server that starts on an empty collection. *)
Definition initial (firstId : ObjectId) (time : Z) : State :=
  mkState [] firstId time.

Definition reachable (s : State) : Prop :=
  exists firstId time calls, s = run calls (initial firstId time).

End Run.

End Server.

(** Read a route of this server as the route over its model, and the calls
    on the model as the calls of [Server]. *)
Ltac over_mongoose :=
  unfold Server.getAll, Server.getById, Server.post, Server.put,
    Server.delete, Server.getMine, Server.Router.getAll,
    Server.Router.getById, Server.Router.post, Server.Router.put,
    Server.Router.delete, Server.Router.getMine, Server.mongoose;
  cbn [Server.ProductModel.find Server.ProductModel.findById
       Server.ProductModel.save Server.ProductModel.findByIdAndUpdate
       Server.ProductModel.deleteOne].

(* ===================================================================== *)
(** * Facts about the array operations *)
(* ===================================================================== *)

Section ArrayFacts.

Context {A : Type} (f : A -> bool).

Lemma findIndex_from_shift (arr : list A) (i : Z) :
  JS.findIndex_from f arr i = -1 /\ Forall (fun x => f x = false) arr
  \/ exists before x after,
       arr = before ++ x :: after
       /\ Forall (fun y => f y = false) before
       /\ f x = true
       /\ JS.findIndex_from f arr i = i + Z.of_nat (length before).
Proof.
  revert i. induction arr as [|a arr IH]; intros i; simpl.
  - left. split; [reflexivity | constructor].
  - destruct (f a) eqn:Ha.
    + right. exists [], a, arr. simpl.
      split; [reflexivity |]. split; [constructor |]. split; [assumption | lia].
    + destruct (IH (i + 1)) as [[Hi Hall] | (before & x & after & -> & Hb & Hx & Hi)].
      * left. split; [assumption | constructor; assumption].
      * right. exists (a :: before), x, after. simpl.
        split; [reflexivity |]. split; [constructor; assumption |].
        split; [assumption | lia].
Qed.

(** [findIndex] either finds nothing, or splits the array at the first
    element that satisfies [f]. *)
Lemma findIndex_cases (arr : list A) :
  JS.findIndex f arr = -1 /\ Forall (fun x => f x = false) arr
  \/ exists before x after,
       arr = before ++ x :: after
       /\ Forall (fun y => f y = false) before
       /\ f x = true
       /\ JS.findIndex f arr = Z.of_nat (length before).
Proof.
  unfold JS.findIndex.
  destruct (findIndex_from_shift arr 0) as [Hnone | (b & x & a & H1 & H2 & H3 & H4)].
  - left. exact Hnone.
  - right. exists b, x, a. rewrite H4.
    split; [assumption |]. split; [assumption |]. split; [assumption | lia].
Qed.

Lemma findIndex_none (arr : list A) :
  Forall (fun x => f x = false) arr -> JS.findIndex f arr = -1.
Proof.
  intros Hall.
  destruct (findIndex_cases arr) as [[Hnone _] | (b & x & a & -> & _ & Hx & _)];
    [exact Hnone |].
  rewrite Forall_app, Forall_cons in Hall. destruct Hall as (_ & Hx' & _).
  congruence.
Qed.

Lemma findIndex_from_first (before after : list A) (x : A) (i : Z) :
  Forall (fun y => f y = false) before -> f x = true ->
  JS.findIndex_from f (before ++ x :: after) i = i + Z.of_nat (length before).
Proof.
  intros Hb Hx. revert i.
  induction Hb as [|b before Hfb _ IH]; intros i; simpl.
  - rewrite Hx. lia.
  - rewrite Hfb, IH. lia.
Qed.

Lemma findIndex_first (before after : list A) (x : A) :
  Forall (fun y => f y = false) before -> f x = true ->
  JS.findIndex f (before ++ x :: after) = Z.of_nat (length before).
Proof.
  intros Hb Hx. unfold JS.findIndex. rewrite findIndex_from_first by assumption. lia.
Qed.

(** Removing one element at the split point. *)
Lemma splice_middle (before after : list A) (x : A) :
  JS.splice (Z.of_nat (length before)) 1 (before ++ x :: after) = before ++ after.
Proof.
  unfold JS.splice. rewrite length_app. simpl length.
  destruct (Z.ltb_spec (Z.of_nat (length before)) 0) as [Hneg | _]; [lia |].
  rewrite Z.min_l by lia.
  replace (Z.min (Z.max 1 0) _) with 1 by lia.
  rewrite Nat2Z.id.
  replace (Z.to_nat (Z.of_nat (length before) + 1)) with (S (length before)) by lia.
  rewrite take_app_length.
  change (before ++ x :: after) with (before ++ [x] ++ after).
  rewrite app_assoc.
  replace (S (length before)) with (length (before ++ [x]))
    by (rewrite length_app; simpl; lia).
  rewrite drop_app_length. reflexivity.
Qed.

(** Overwriting the element at the split point. *)
Lemma assign_middle (before after : list A) (x v : A) :
  JS.assign (Z.of_nat (length before)) v (before ++ x :: after) = before ++ v :: after.
Proof.
  unfold JS.assign. rewrite Nat2Z.id.
  rewrite insert_app_r_alt by lia. rewrite Nat.sub_diag. reflexivity.
Qed.

Lemma lookup_total_middle `{Inhabited A} (before after : list A) (x : A) :
  (before ++ x :: after) !!! length before = x.
Proof.
  apply list_lookup_total_correct. apply list_lookup_middle. reflexivity.
Qed.

End ArrayFacts.

Section ValueExamples.

Local Open Scope string_scope.

Example or_zero_is_infinity : JS.or (JS.ofZ 0) JS.Infinity = JS.Infinity.
Proof. reflexivity. Qed.

Example or_keeps_truthy : JS.or (JS.ofZ 1000) JS.Infinity = JS.ofZ 1000.
Proof. reflexivity. Qed.

Example nan_compares_false :
  JS.le JS.NaN (JS.ofZ 1) = false /\ JS.ge JS.NaN (JS.ofZ 1) = false.
Proof. split; reflexivity. Qed.

Example le_is_inclusive : JS.le (JS.Fin 4.5) (JS.Fin 4.5) = true.
Proof. reflexivity. Qed.

Example toLowerCase_example : JS.toLowerCase "Sony 4K TV" = "sony 4k tv".
Proof. reflexivity. Qed.

Example includes_example :
  JS.includes "noise-cancelling" "cancel" = true
  /\ JS.includes "noise-cancelling" "xyz" = false
  /\ JS.includes "abc" EmptyString = true.
Proof. repeat split; reflexivity. Qed.

Example findIndex_example :
  JS.findIndex (Z.eqb 7) [3; 7; 7] = 1 /\ JS.findIndex (Z.eqb 9) [3; 7; 7] = -1.
Proof. split; reflexivity. Qed.

Example splice_example :
  JS.splice 1 1 [3; 7; 9] = [3; 9] /\ JS.splice (-1) 1 [3; 7; 9] = [3; 7].
Proof. split; reflexivity. Qed.

End ValueExamples.

(* ===================================================================== *)
(** * The mock service *)
(* ===================================================================== *)

Section MockService.

Import Client.

Lemma has_id_true (id : string) (p : Product.t) :
  ProductService.has_id id p = true <-> Product.id p = id.
Proof. unfold ProductService.has_id. apply String.eqb_eq. Qed.

Lemma has_id_false (id : string) (p : Product.t) :
  ProductService.has_id id p = false <-> Product.id p <> id.
Proof. unfold ProductService.has_id. apply String.eqb_neq. Qed.

Lemma no_product_has_id (id : string) (arr : list Product.t) :
  Forall (fun q => Product.id q <> id) arr <->
  Forall (fun q => ProductService.has_id id q = false) arr.
Proof. apply Forall_iff. intros q. symmetry. apply has_id_false. Qed.

(** The first product with a given id, when there is one. *)
Lemma first_with_id (id : string) (arr : list Product.t) :
  Forall (fun q => Product.id q <> id) arr
  \/ exists before p after,
       arr = before ++ p :: after
       /\ Product.id p = id
       /\ Forall (fun q => Product.id q <> id) before.
Proof.
  destruct (findIndex_cases (ProductService.has_id id) arr)
    as [[_ Hall] | (before & p & after & Harr & Hb & Hp & _)].
  - left. apply no_product_has_id, Hall.
  - right. exists before, p, after.
    split; [exact Harr |]. split; [apply has_id_true, Hp |].
    apply no_product_has_id, Hb.
Qed.

Lemma deleteProduct_present (id : string) (before after : list Product.t)
    (p : Product.t) :
  Product.id p = id ->
  Forall (fun q => Product.id q <> id) before ->
  ProductService.deleteProduct id (before ++ p :: after)
  = (JS.Ok true, before ++ after).
Proof.
  intros Hp Hb. unfold ProductService.deleteProduct.
  rewrite findIndex_first by (try apply no_product_has_id; try apply has_id_true; assumption).
  destruct (Z.eqb_spec (Z.of_nat (length before)) (-1)) as [Hneg | _]; [lia |].
  simpl. rewrite splice_middle. reflexivity.
Qed.

Lemma deleteProduct_absent (id : string) (arr : list Product.t) :
  Forall (fun q => Product.id q <> id) arr ->
  ProductService.deleteProduct id arr = (JS.Throw "Product not found"%string, arr).
Proof.
  intros Hall. unfold ProductService.deleteProduct.
  rewrite findIndex_none by (apply no_product_has_id; assumption).
  reflexivity.
Qed.

Lemma updateProduct_present (now id : string) (data : ProductFormData.t)
    (before after : list Product.t) (p : Product.t) :
  Product.id p = id ->
  Forall (fun q => Product.id q <> id) before ->
  ProductService.updateProduct now id data (before ++ p :: after)
  = (JS.Ok (ProductService.spread p data now),
     before ++ ProductService.spread p data now :: after).
Proof.
  intros Hp Hb. unfold ProductService.updateProduct.
  rewrite findIndex_first by (try apply no_product_has_id; try apply has_id_true; assumption).
  destruct (Z.eqb_spec (Z.of_nat (length before)) (-1)) as [Hneg | _]; [lia |].
  simpl. rewrite Nat2Z.id, lookup_total_middle, assign_middle. reflexivity.
Qed.

Lemma updateProduct_absent (now id : string) (data : ProductFormData.t)
    (arr : list Product.t) :
  Forall (fun q => Product.id q <> id) arr ->
  ProductService.updateProduct now id data arr
  = (JS.Throw "Product not found"%string, arr).
Proof.
  intros Hall. unfold ProductService.updateProduct.
  rewrite findIndex_none by (apply no_product_has_id; assumption).
  reflexivity.
Qed.

(** A call of the mock service that rejects has left the array alone. *)
Lemma mock_rejection_keeps_store (random : N) (now1 now2 now : string)
    (arr arr' : list Product.t) (message : string) :
  let api := mockApi random now1 now2 now in
  (forall data, Api.createProduct api data arr <> (JS.Throw message, arr'))
  /\ (forall id data,
        Api.updateProduct api id data arr = (JS.Throw message, arr') -> arr' = arr)
  /\ (forall id,
        Api.deleteProduct api id arr = (JS.Throw message, arr') -> arr' = arr).
Proof.
  simpl. split; [| split].
  - intros data. unfold ProductService.createProduct. discriminate.
  - intros id data. unfold ProductService.updateProduct.
    destruct (negb _); intros Heq; inversion Heq; reflexivity.
  - intros id. unfold ProductService.deleteProduct.
    destruct (negb _); intros Heq; inversion Heq; reflexivity.
Qed.

(** C9. [deleteProduct] on an id some product of the array has resolves
    with [true] and removes the first product with that id: the array splits
    around it into the products before, none of which has the id, and the
    products after, and what is left is these two parts in their order. On an
    id no product has, it rejects with "Product not found" and the array is
    as it was. *)
Theorem deleteProduct_removes_first (id : string) (mockProducts : list Product.t) :
  ((exists p, p ∈ mockProducts /\ Product.id p = id) ->
   exists before p after,
     mockProducts = before ++ p :: after
     /\ Product.id p = id
     /\ Forall (fun q => Product.id q <> id) before
     /\ ProductService.deleteProduct id mockProducts
        = (JS.Ok true, before ++ after))
  /\ ((forall p, p ∈ mockProducts -> Product.id p <> id) ->
      ProductService.deleteProduct id mockProducts
      = (JS.Throw "Product not found"%string, mockProducts)).
Proof.
  split.
  - intros (p & Hin & Hp).
    destruct (first_with_id id mockProducts)
      as [Hall | (before & q & after & -> & Hq & Hb)].
    + rewrite Forall_forall in Hall. destruct (Hall p Hin Hp).
    + exists before, q, after.
      split; [reflexivity |]. split; [assumption |]. split; [assumption |].
      apply deleteProduct_present; assumption.
  - intros Hnone. apply deleteProduct_absent, Forall_forall, Hnone.
Qed.

(** On the eight products the service starts with: deleting "3" leaves the
    other seven in order, deleting "42" rejects. *)
Lemma deleteProduct_removes_first_witness :
  (exists before p after,
     ProductService.mockProducts = before ++ p :: after
     /\ Product.id p = "3"%string
     /\ Forall (fun q => Product.id q <> "3"%string) before
     /\ ProductService.deleteProduct "3" ProductService.mockProducts
        = (JS.Ok true, before ++ after))
  /\ ProductService.deleteProduct "42" ProductService.mockProducts
     = (JS.Throw "Product not found"%string, ProductService.mockProducts).
Proof.
  split.
  - apply (proj1 (deleteProduct_removes_first "3" ProductService.mockProducts)).
    exists (ProductService.product "3" "Samsung 4K Smart TV"
              "65-inch QLED display with smart features" "Electronics" 1299 4.3
              "2023-03-05T14:15:00Z").
    split; [| reflexivity].
    unfold ProductService.mockProducts.
    do 2 apply list_elem_of_further. apply list_elem_of_here.
  - apply (proj2 (deleteProduct_removes_first "42" ProductService.mockProducts)).
    intros p Hin. unfold ProductService.mockProducts in Hin.
    repeat (apply elem_of_cons in Hin as [-> | Hin]; [discriminate |]).
    apply elem_of_nil in Hin. destruct Hin.
Defined.

End MockService.

(* ===================================================================== *)
(** * The derived filtered view *)
(* ===================================================================== *)

Section Filtering.

Import Client.

Lemma filter_sublist {A} (g : A -> bool) (l : list A) :
  List.filter g l `sublist_of` l.
Proof.
  induction l as [|x l IH]; simpl.
  - constructor.
  - destruct (g x); [apply sublist_skip | apply sublist_cons]; exact IH.
Qed.

Lemma filter_filter {A} (g h : A -> bool) (l : list A) :
  List.filter g (List.filter h l) = List.filter (fun x => h x && g x) l.
Proof.
  induction l as [|x l IH]; simpl; [reflexivity |].
  destruct (h x); simpl; [destruct (g x) |]; rewrite IH; reflexivity.
Qed.

Lemma filter_all {A} (l : list A) : List.filter (fun _ => true) l = l.
Proof. induction l as [|x l IH]; simpl; [| rewrite IH]; reflexivity. Qed.

Lemma filter_when {A} (c : bool) (g : A -> bool) (l : list A) :
  (if c then List.filter g l else l)
  = List.filter (fun x => if c then g x else true) l.
Proof. destruct c; [reflexivity | symmetry; apply filter_all]. Qed.

Lemma filter_bound {A B} (bound : option B) (g : B -> A -> bool) (l : list A) :
  match bound with Some b => List.filter (g b) l | None => l end
  = List.filter (fun x => match bound with Some b => g b x | None => true end) l.
Proof. destruct bound; [reflexivity | symmetry; apply filter_all]. Qed.

(** The five criteria as the effect applies them, in one predicate. *)
Definition passes (filters : FilterOptions.t) (product : Product.t) : bool :=
  (if JS.truthy_nullable (FilterOptions.category filters)
   then strict_eq (Product.category product) (FilterOptions.category filters)
   else true)
  && match FilterOptions.minPrice filters with
     | Some minPrice => JS.ge (Product.price product) (JS.or minPrice (JS.ofZ 0))
     | None => true
     end
  && match FilterOptions.maxPrice filters with
     | Some maxPrice => JS.le (Product.price product) (JS.or maxPrice JS.Infinity)
     | None => true
     end
  && match FilterOptions.minRating filters with
     | Some minRating => JS.ge (Product.rating product) (JS.or minRating (JS.ofZ 0))
     | None => true
     end
  && (if JS.truthy_string (FilterOptions.search filters)
      then JS.includes (JS.toLowerCase (Product.name product))
             (JS.toLowerCase (FilterOptions.search filters))
           || JS.includes (JS.toLowerCase (Product.description product))
                (JS.toLowerCase (FilterOptions.search filters))
      else true).

(** The effect's chain of filters keeps the products that pass every
    criterion: the criteria are conjunctive. *)
Lemma applyFilters_passes (filters : FilterOptions.t) (products : list Product.t) :
  applyFilters filters products = List.filter (passes filters) products.
Proof.
  unfold applyFilters, passes. cbv zeta.
  rewrite (filter_when (JS.truthy_string _)).
  rewrite (filter_bound (FilterOptions.minRating filters)
             (fun b x => JS.ge (Product.rating x) (JS.or b (JS.ofZ 0)))).
  rewrite (filter_bound (FilterOptions.maxPrice filters)
             (fun b x => JS.le (Product.price x) (JS.or b JS.Infinity))).
  rewrite (filter_bound (FilterOptions.minPrice filters)
             (fun b x => JS.ge (Product.price x) (JS.or b (JS.ofZ 0)))).
  rewrite (filter_when (JS.truthy_nullable _)).
  rewrite !filter_filter. apply List.filter_ext. intros x.
  rewrite !andb_assoc. reflexivity.
Qed.

(** A lower bound that is zero is the bound [|| 0] puts in its place. *)
Lemma ge_or_zero (x bound : JS.number) :
  bound <> JS.NaN -> JS.ge x (JS.or bound (JS.ofZ 0)) = JS.ge x bound.
Proof.
  intros Hnan. unfold JS.or. destruct (JS.truthy bound) eqn:Ht; [reflexivity |].
  destruct bound as [q | | |]; simpl in Ht; try discriminate; [| congruence].
  apply negb_false_iff, Qeq_bool_iff in Ht.
  unfold JS.ge, JS.le, JS.ofZ. destruct x as [y | | |]; try reflexivity.
  apply Qleb_comp; [symmetry; exact Ht | reflexivity].
Qed.

(** An upper bound that is truthy is the bound the effect compares with. *)
Lemma le_or_infinity (x bound : JS.number) :
  JS.truthy bound = true -> JS.le x (JS.or bound JS.Infinity) = JS.le x bound.
Proof. intros Ht. unfold JS.or. rewrite Ht. reflexivity. Qed.

(** Where no bound is [NaN] and the upper price bound is not zero, the view
    holds exactly the products that satisfy the criteria of section 4.3, in
    the order of the base list. *)
Lemma applyFilters_satisfies (filters : FilterOptions.t) (products : list Product.t) :
  (forall b, FilterOptions.minPrice filters = Some b -> b <> JS.NaN) ->
  (forall b, FilterOptions.maxPrice filters = Some b -> JS.truthy b = true) ->
  (forall b, FilterOptions.minRating filters = Some b -> b <> JS.NaN) ->
  applyFilters filters products = List.filter (satisfies filters) products.
Proof.
  intros Hmin Hmax Hrating. rewrite applyFilters_passes.
  apply List.filter_ext. intros x. unfold passes, satisfies.
  destruct (FilterOptions.minPrice filters) as [b1|];
    [rewrite (ge_or_zero _ b1) by (apply Hmin; reflexivity) |];
  (destruct (FilterOptions.maxPrice filters) as [b2|];
    [rewrite (le_or_infinity _ b2) by (apply Hmax; reflexivity) |]);
  (destruct (FilterOptions.minRating filters) as [b3|];
    [rewrite (ge_or_zero _ b3) by (apply Hrating; reflexivity) |]);
  reflexivity.
Qed.

(** C10. The filtered view is a subsequence of the base list, for every
    base list and every filter: what the effect computes, and so what it
    leaves in [filteredProducts], lists products of the page's product list,
    each at most as often as the list holds it and in the list's order. *)
Theorem filtered_view_is_sublist (filters : FilterOptions.t)
    (products : list Product.t) (w : World) :
  applyFilters filters products `sublist_of` products
  /\ read (filteredProducts (page (filterEffect w))) (filterEffect w)
     `sublist_of` shown w.
Proof.
  assert (Hsub : forall f l, applyFilters f l `sublist_of` l).
  { intros f l. rewrite applyFilters_passes. apply filter_sublist. }
  split; [apply Hsub |]. simpl. apply Hsub.
Qed.

End Filtering.

Section FilteringExamples.

Import Client.

Local Open Scope string_scope.

(** A search term that occurs in no name and no description empties the
    view, whatever the other criteria are. *)
Lemma unmatched_search_yields_nothing (filters : FilterOptions.t)
    (products : list Product.t) :
  JS.truthy_string (FilterOptions.search filters) = true ->
  Forall (fun p =>
    JS.includes (JS.toLowerCase (Product.name p))
      (JS.toLowerCase (FilterOptions.search filters)) = false
    /\ JS.includes (JS.toLowerCase (Product.description p))
         (JS.toLowerCase (FilterOptions.search filters)) = false) products ->
  applyFilters filters products = [].
Proof.
  intros Hsearch Hall. rewrite applyFilters_passes.
  induction Hall as [|p l [Hname Hdesc] _ IH]; simpl; [reflexivity |].
  unfold passes at 1. rewrite Hsearch, Hname, Hdesc, andb_false_r. exact IH.
Qed.

Definition priced (id : string) (price : Z) : Product.t :=
  ProductService.product id "Desk lamp" "Warm light" "Furniture" price 4
    "2023-01-15T08:00:00Z".

(** The example of section 8: of the prices 100, 500 and 1500, the window
    from 400 to 1000 keeps the product priced 500, and the search term
    [xyz], which matches nothing, leaves no product. *)
Lemma price_window_example :
  let products := [priced "a" 100; priced "b" 500; priced "c" 1500] in
  let window search :=
    FilterOptions.mk None (Some (JS.ofZ 400)) (Some (JS.ofZ 1000)) None search in
  applyFilters (window EmptyString) products = [priced "b" 500]
  /\ applyFilters (window "xyz") products = [].
Proof. split; reflexivity. Qed.

(** The search is insensitive to case, on both sides. *)
Lemma search_ignores_case :
  let only search := FilterOptions.mk None None None None search in
  List.map Product.id (applyFilters (only "MACBOOK") ProductService.mockProducts)
  = ["1"]
  /\ List.map Product.id (applyFilters (only "SMART") ProductService.mockProducts)
     = ["3"; "6"].
Proof. split; reflexivity. Qed.

(** C6, at an upper price bound of zero. The criteria of section 4.3 are
    met by no product of the mock catalogue, every price of which is above
    zero; the effect compares each price with [0 || Infinity] and keeps all
    eight products. *)
Theorem zero_maxPrice_is_no_bound :
  let filters := FilterOptions.mk None None (Some (JS.ofZ 0)) None EmptyString in
  List.filter (satisfies filters) ProductService.mockProducts = []
  /\ applyFilters filters ProductService.mockProducts = ProductService.mockProducts.
Proof. split; reflexivity. Qed.

End FilteringExamples.

(* ===================================================================== *)
(** * The page's handlers *)
(* ===================================================================== *)

Section PageHandlers.

Import Client.

Local Open Scope string_scope.

(** The call [handleProductSubmit] awaits: an update when a product is being
    edited, a creation otherwise. *)
Definition submitCall (api : Api.t) (data : ProductFormData.t) (w : World)
    : JS.outcome string Product.t * list Product.t :=
  match currentProduct (page w) with
  | Some currentProduct =>
      Api.updateProduct api (Product.id currentProduct) data (store w)
  | None => Api.createProduct api data (store w)
  end.

Lemma handleProductSubmit_rejected (api : Api.t) (data : ProductFormData.t)
    (w : World) (message : string) (store' : list Product.t) :
  submitCall api data w = (JS.Throw message, store') ->
  products (page (snd (handleProductSubmit api data w))) = products (page w)
  /\ store (snd (handleProductSubmit api data w)) = store'.
Proof.
  unfold submitCall, handleProductSubmit, JS.finally, JS.try_catch, JS.bind,
    await, setState, JS.modify.
  destruct (currentProduct (page w)) as [cur|]; simpl;
    intros ->; simpl; split; reflexivity.
Qed.

Lemma handleProductSubmit_resolved (api : Api.t) (data : ProductFormData.t)
    (w : World) (p : Product.t) (store' : list Product.t) :
  submitCall api data w = (JS.Ok p, store') ->
  let prevProducts := read (products (page w)) (mkWorld store' (page w)) in
  products (page (snd (handleProductSubmit api data w)))
  = Own (match currentProduct (page w) with
         | Some currentProduct =>
             List.map (fun q =>
               if String.eqb (Product.id q) (Product.id currentProduct)
               then p else q) prevProducts
         | None => prevProducts ++ [p]
         end)
  /\ store (snd (handleProductSubmit api data w)) = store'.
Proof.
  unfold submitCall, handleProductSubmit, JS.finally, JS.try_catch, JS.bind,
    await, setState, updateProducts, JS.modify, shown.
  destruct (currentProduct (page w)) as [cur|]; simpl;
    intros ->; simpl; split; reflexivity.
Qed.

Lemma confirmDelete_rejected (api : Api.t) (w : World) (id message : string)
    (store' : list Product.t) :
  productToDelete (page w) = Some id ->
  JS.truthy_string id = true ->
  Api.deleteProduct api id (store w) = (JS.Throw message, store') ->
  products (page (snd (confirmDelete api w))) = products (page w)
  /\ store (snd (confirmDelete api w)) = store'.
Proof.
  intros Hid Htruthy Hcall.
  unfold confirmDelete, JS.finally, JS.try_catch, JS.bind, await, setState,
    JS.modify.
  rewrite Hid, Htruthy. simpl. rewrite Hcall. simpl. split; reflexivity.
Qed.

Lemma confirmDelete_resolved (api : Api.t) (w : World) (id : string) (r : bool)
    (store' : list Product.t) :
  productToDelete (page w) = Some id ->
  JS.truthy_string id = true ->
  Api.deleteProduct api id (store w) = (JS.Ok r, store') ->
  products (page (snd (confirmDelete api w)))
  = Own (List.filter (fun q => negb (String.eqb (Product.id q) id))
           (read (products (page w)) (mkWorld store' (page w))))
  /\ store (snd (confirmDelete api w)) = store'.
Proof.
  intros Hid Htruthy Hcall.
  unfold confirmDelete, JS.finally, JS.try_catch, JS.bind, await, setState,
    updateProducts, JS.modify, shown.
  rewrite Hid, Htruthy. simpl. rewrite Hcall. simpl. split; reflexivity.
Qed.

(** C7. Whatever service the page runs against: when the call that
    [handleProductSubmit] awaits (the update of the product being edited, or
    the creation) rejects, and when the deletion [confirmDelete] awaits
    rejects, the handler leaves [products] holding the array it held, and
    does nothing to the service's array beyond what the call did. [products]
    is replaced in the other case only, when the call has resolved, by an
    array built from its result. *)
Theorem rejected_call_keeps_products (api : Api.t) (w : World) :
  (forall data message store',
     submitCall api data w = (JS.Throw message, store') ->
     products (page (snd (handleProductSubmit api data w))) = products (page w)
     /\ store (snd (handleProductSubmit api data w)) = store')
  /\ (forall id message store',
        productToDelete (page w) = Some id ->
        JS.truthy_string id = true ->
        Api.deleteProduct api id (store w) = (JS.Throw message, store') ->
        products (page (snd (confirmDelete api w))) = products (page w)
        /\ store (snd (confirmDelete api w)) = store')
  /\ (forall data,
        products (page (snd (handleProductSubmit api data w))) <> products (page w) ->
        exists p store', submitCall api data w = (JS.Ok p, store'))
  /\ (products (page (snd (confirmDelete api w))) <> products (page w) ->
      exists id r store',
        productToDelete (page w) = Some id
        /\ Api.deleteProduct api id (store w) = (JS.Ok r, store')).
Proof.
  split; [| split; [| split]].
  - intros data message store'. apply handleProductSubmit_rejected.
  - intros id message store'. apply confirmDelete_rejected.
  - intros data Hchanged.
    destruct (submitCall api data w) as [[p | message] store'] eqn:Hcall.
    + exists p, store'. reflexivity.
    + destruct Hchanged. eapply handleProductSubmit_rejected, Hcall.
  - intros Hchanged.
    destruct (productToDelete (page w)) as [id|] eqn:Hid.
    + destruct (JS.truthy_string id) eqn:Htruthy.
      * destruct (Api.deleteProduct api id (store w)) as [[r | message] store'] eqn:Hcall.
        -- exists id, r, store'. split; [reflexivity | exact Hcall].
        -- destruct Hchanged. eapply confirmDelete_rejected; eassumption.
      * destruct Hchanged. unfold confirmDelete. rewrite Hid, Htruthy. reflexivity.
    + destruct Hchanged. unfold confirmDelete. rewrite Hid. reflexivity.
Qed.

Definition demoApi : Api.t :=
  mockApi 7 "2024-01-01T00:00:00Z" "2024-01-01T00:00:00Z" "2024-01-01T00:00:01Z".

(** After [loadData] on the mock service the page holds the service's own
    array, not a copy of it. *)
Lemma loadData_shares_the_array (random : N) (now1 now2 now : string) (w : World) :
  products (page (snd (loadData (mockApi random now1 now2 now) w))) = TheStore
  /\ store (snd (loadData (mockApi random now1 now2 now) w)) = store w.
Proof. split; reflexivity. Qed.

(** The page once it has loaded from the mock service, with a product being
    edited and an id to delete that the service does not know. *)
Definition strayWorld : World :=
  let loaded := snd (loadData demoApi (mkWorld ProductService.mockProducts initialPage)) in
  mkWorld (store loaded)
    (setProductToDelete (Some "42")
       (setCurrentProduct (Some (priced "42" 10)) (page loaded))).

Definition someData : ProductFormData.t :=
  ProductFormData.mk "Desk lamp" "Warm light" "Furniture" (JS.ofZ 12) (JS.ofZ 4).

Lemma rejected_call_keeps_products_witness :
  shown (snd (handleProductSubmit demoApi someData strayWorld)) = shown strayWorld
  /\ shown (snd (confirmDelete demoApi strayWorld)) = shown strayWorld.
Proof.
  destruct (rejected_call_keeps_products demoApi strayWorld) as (Hsubmit & Hdelete & _).
  destruct (Hsubmit someData "Product not found" ProductService.mockProducts)
    as [Hp Hs]; [reflexivity |].
  destruct (Hdelete "42" "Product not found" ProductService.mockProducts)
    as [Hp' Hs']; [reflexivity | reflexivity | reflexivity |].
  unfold shown, read. rewrite Hp, Hs, Hp', Hs'. split; reflexivity.
Defined.

(** On the mock service a rejected call has changed nothing at all, so the
    list the page shows is the list it showed, also when the page holds the
    service's own array. *)
Lemma mock_rejection_keeps_shown (random : N) (now1 now2 now : string)
    (data : ProductFormData.t) (w : World) (message : string)
    (store' : list Product.t) :
  submitCall (mockApi random now1 now2 now) data w = (JS.Throw message, store') ->
  shown (snd (handleProductSubmit (mockApi random now1 now2 now) data w)) = shown w.
Proof.
  intros Hcall.
  destruct (handleProductSubmit_rejected _ _ _ _ _ Hcall) as [Hproducts Hstore].
  assert (Hsame : store' = store w).
  { destruct (mock_rejection_keeps_store random now1 now2 now (store w) store' message)
      as (Hcreate & Hupdate & _).
    unfold submitCall in Hcall. destruct (currentProduct (page w)) as [cur|].
    - eapply Hupdate, Hcall.
    - destruct (Hcreate data Hcall). }
  unfold shown, read. rewrite Hproducts, Hstore, Hsame. reflexivity.
Qed.

End PageHandlers.

(* ===================================================================== *)
(** * The demo authentication *)
(* ===================================================================== *)

Section DemoAuth.

Import Client.

Local Open Scope string_scope.

Variable stringify : User.t -> string.
Variable accepts : gmap string string -> string -> string -> bool.

(** The state [login] and [signup] leave when both writes went through, up
    to the toast. *)
Definition signedIn (random email : string) (message : string) (s : Auth.State)
    : Auth.State :=
  let mockUser := User.mk "1" email in
  let mockToken := "mock_jwt_token_" +:+ random in
  Auth.mk (Some mockUser) (Some mockToken) (Auth.isLoading s)
    (<["user" := stringify mockUser]> (<["jwt_token" := mockToken]> (Auth.localStorage s)))
    (Auth.toasts s ++ [(success, message)]).

(** The storage takes the token and then the user. *)
Definition storesSession (random email : string) (s : Auth.State) : Prop :=
  let mockUser := User.mk "1" email in
  let mockToken := "mock_jwt_token_" +:+ random in
  accepts (Auth.localStorage s) "jwt_token" mockToken = true
  /\ accepts (<["jwt_token" := mockToken]> (Auth.localStorage s)) "user"
       (stringify mockUser) = true.

Ltac run_sign_in :=
  unfold Auth.login, Auth.signup, JS.try_catch, JS.bind, Auth.setItem, JS.modify,
    JS.ret;
  cbv beta zeta.

Lemma login_runs (random email password : string) (s : Auth.State) :
  storesSession random email s ->
  Auth.login stringify accepts random email password s
  = (JS.Ok true, signedIn random email "Login successful!" s).
Proof.
  intros [Htoken Huser]. run_sign_in. rewrite Htoken. simpl.
  rewrite Huser. reflexivity.
Qed.

Lemma signup_runs (random email password : string) (s : Auth.State) :
  storesSession random email s ->
  Auth.signup stringify accepts random email password s
  = (JS.Ok true, signedIn random email "Account created successfully!" s).
Proof.
  intros [Htoken Huser]. run_sign_in. rewrite Htoken. simpl.
  rewrite Huser. reflexivity.
Qed.

(** The storage [login] and [signup] leave: as it was, or with the token,
    or with the token and the user. They return [true] in the last case
    only, and where they return [false] the provider has the user and the
    token it had. *)
Lemma sign_in_cases (random email password : string) (s : Auth.State)
    (run : string -> string -> string -> JS.M Auth.State string bool) :
  run = Auth.login stringify accepts \/ run = Auth.signup stringify accepts ->
  let mockUser := User.mk "1" email in
  let mockToken := "mock_jwt_token_" +:+ random in
  let after := snd (run random email password s) in
  (storesSession random email s
   /\ fst (run random email password s) = JS.Ok true
   /\ Auth.localStorage after
      = <["user" := stringify mockUser]>
          (<["jwt_token" := mockToken]> (Auth.localStorage s)))
  \/ (~ storesSession random email s
      /\ fst (run random email password s) = JS.Ok false
      /\ Auth.user after = Auth.user s
      /\ Auth.token after = Auth.token s
      /\ (Auth.localStorage after = Auth.localStorage s
          \/ Auth.localStorage after
             = <["jwt_token" := mockToken]> (Auth.localStorage s))).
Proof.
  intros Hrun mockUser mockToken after. unfold after, storesSession.
  fold mockUser mockToken.
  destruct (accepts (Auth.localStorage s) "jwt_token" mockToken) eqn:Htoken;
    [destruct (accepts (<["jwt_token" := mockToken]> (Auth.localStorage s)) "user"
                 (stringify mockUser)) eqn:Huser |].
  - left. split; [split; reflexivity |].
    destruct Hrun as [-> | ->]; run_sign_in; fold mockUser mockToken;
      rewrite Htoken; simpl; fold mockUser mockToken; rewrite Huser;
      split; reflexivity.
  - right. split; [intros [_ Habs]; discriminate |].
    destruct Hrun as [-> | ->]; run_sign_in; fold mockUser mockToken;
      rewrite Htoken; simpl; fold mockUser mockToken; rewrite Huser; simpl;
      repeat split; right; reflexivity.
  - right. split; [intros [Habs _]; discriminate |].
    destruct Hrun as [-> | ->]; run_sign_in; fold mockUser mockToken;
      rewrite Htoken; simpl; repeat split; left; reflexivity.
Qed.



(** Where the storage refuses one of the two writes, [login] and [signup]
    return [false], raise the failure toast and leave the user and the token
    the provider had; the password still changes nothing. *)
Lemma demo_auth_fails_when_refused (random email password : string)
    (s : Auth.State) :
  ~ storesSession random email s ->
  fst (Auth.login stringify accepts random email password s) = JS.Ok false
  /\ fst (Auth.signup stringify accepts random email password s) = JS.Ok false
  /\ Auth.user (snd (Auth.login stringify accepts random email password s))
     = Auth.user s
  /\ Auth.token (snd (Auth.login stringify accepts random email password s))
     = Auth.token s
  /\ (forall password',
        Auth.login stringify accepts random email password' s
        = Auth.login stringify accepts random email password s).
Proof.
  intros Hrefused.
  destruct (sign_in_cases random email password s (Auth.login stringify accepts)
              (or_introl eq_refl))
    as [(Hstores & _) | (_ & Hlogin & Huser & Htoken & _)]; [contradiction |].
  destruct (sign_in_cases random email password s (Auth.signup stringify accepts)
              (or_intror eq_refl))
    as [(Hstores & _) | (_ & Hsignup & _)]; [contradiction |].
  split; [exact Hlogin |]. split; [exact Hsignup |]. split; [exact Huser |].
  split; [exact Htoken |]. intros password'. reflexivity.
Qed.

End DemoAuth.

Section DemoAuthExamples.

Import Client.

Local Open Scope string_scope.


Definition roomy (items : gmap string string) (key value : string) : bool :=
  true.





End DemoAuthExamples.

(* ===================================================================== *)
(** * The collection *)
(* ===================================================================== *)

Section CollectionFacts.

Import Server.

Lemma has_id_eq (oid : ObjectId) (p : Product.t) :
  has_id oid p = true <-> Product._id p = oid.
Proof. unfold has_id. apply N.eqb_eq. Qed.

Lemma find_has_id (oid : ObjectId) (docs : list Product.t) (p : Product.t) :
  List.find (has_id oid) docs = Some p -> p ∈ docs /\ Product._id p = oid.
Proof.
  intros Hfind. apply List.find_some in Hfind as [Hin Hid].
  split; [apply list_elem_of_In, Hin | apply has_id_eq, Hid].
Qed.

Lemma find_has_id_none (oid : ObjectId) (docs : list Product.t) :
  List.find (has_id oid) docs = None <->
  Forall (fun p => Product._id p <> oid) docs.
Proof.
  induction docs as [|p docs IH]; simpl.
  - split; [constructor | reflexivity].
  - destruct (has_id oid p) eqn:Hp.
    + split; [discriminate |]. intros Hall. apply Forall_cons in Hall as [Hne _].
      apply has_id_eq in Hp. contradiction.
    + rewrite IH, Forall_cons. split; [| tauto]. intros Hall. split; [| exact Hall].
      intros Heq. apply has_id_eq in Heq. congruence.
Qed.

Section Update.

Variable oid : ObjectId.
Variable f : Product.t -> Product.t.
Hypothesis f_keeps_id : forall p, Product._id (f p) = Product._id p.

Lemma find_updateOne (docs : list Product.t) :
  List.find (has_id oid) (updateOne oid f docs)
  = f <$> List.find (has_id oid) docs.
Proof.
  induction docs as [|p docs IH]; simpl; [reflexivity |].
  destruct (has_id oid p) eqn:Hp; simpl.
  - replace (has_id oid (f p)) with true; [reflexivity |].
    symmetry. apply has_id_eq. rewrite f_keeps_id. apply has_id_eq, Hp.
  - rewrite Hp. exact IH.
Qed.

Lemma find_updateOne_other (other : ObjectId) (docs : list Product.t) :
  other <> oid ->
  List.find (has_id other) (updateOne oid f docs) = List.find (has_id other) docs.
Proof.
  intros Hne. induction docs as [|p docs IH]; simpl; [reflexivity |].
  destruct (has_id oid p) eqn:Hp; simpl.
  - apply has_id_eq in Hp.
    replace (has_id other (f p)) with false
      by (symmetry; apply not_true_iff_false; rewrite has_id_eq, f_keeps_id; congruence).
    replace (has_id other p) with false
      by (symmetry; apply not_true_iff_false; rewrite has_id_eq; congruence).
    reflexivity.
  - destruct (has_id other p); [reflexivity | exact IH].
Qed.

Lemma ids_updateOne (docs : list Product.t) :
  List.map Product._id (updateOne oid f docs) = List.map Product._id docs.
Proof.
  induction docs as [|p docs IH]; simpl; [reflexivity |].
  destruct (has_id oid p); simpl; [rewrite f_keeps_id | rewrite IH]; reflexivity.
Qed.

Lemma Forall_updateOne (Q : Product.t -> Prop) (docs : list Product.t) :
  (forall p, Q p -> Q (f p)) -> Forall Q docs -> Forall Q (updateOne oid f docs).
Proof.
  intros Hf Hall. induction Hall as [|p docs Hp Hdocs IH]; simpl; [constructor |].
  destruct (has_id oid p); constructor; auto.
Qed.

End Update.

Lemma removeOne_sublist (oid : ObjectId) (docs : list Product.t) :
  removeOne oid docs `sublist_of` docs.
Proof.
  induction docs as [|p docs IH]; simpl; [constructor |].
  destruct (has_id oid p); [apply sublist_cons; reflexivity | apply sublist_skip, IH].
Qed.

Lemma Forall_removeOne (Q : Product.t -> Prop) (oid : ObjectId)
    (docs : list Product.t) :
  Forall Q docs -> Forall Q (removeOne oid docs).
Proof.
  intros Hall. rewrite Forall_forall in *. intros p Hp. apply Hall.
  eapply elem_of_sublist; [exact Hp | apply removeOne_sublist].
Qed.

Lemma find_removeOne_other (oid other : ObjectId) (docs : list Product.t) :
  other <> oid ->
  List.find (has_id other) (removeOne oid docs) = List.find (has_id other) docs.
Proof.
  intros Hne. induction docs as [|p docs IH]; simpl; [reflexivity |].
  destruct (has_id oid p) eqn:Hp; simpl.
  - apply has_id_eq in Hp.
    replace (has_id other p) with false
      by (symmetry; apply not_true_iff_false; rewrite has_id_eq; congruence).
    reflexivity.
  - destruct (has_id other p); [reflexivity | exact IH].
Qed.

(** Where ids are not repeated, removing a document leaves none with its
    id. *)
Lemma find_removeOne (oid : ObjectId) (docs : list Product.t) :
  NoDup (List.map Product._id docs) ->
  List.find (has_id oid) (removeOne oid docs) = None.
Proof.
  intros Hnodup. apply find_has_id_none.
  induction docs as [|p docs IH]; simpl; [constructor |].
  simpl in Hnodup. apply NoDup_cons in Hnodup as [Hnotin Hnodup].
  destruct (has_id oid p) eqn:Hp.
  - apply has_id_eq in Hp. subst oid. apply Forall_forall. intros q Hq Heq.
    apply Hnotin. apply list_elem_of_In. rewrite <- Heq.
    apply in_map, list_elem_of_In, Hq.
  - constructor; [| apply IH, Hnodup].
    intros Heq. apply has_id_eq in Heq. congruence.
Qed.

End CollectionFacts.

(* ===================================================================== *)
(** * The routes *)
(* ===================================================================== *)

Section RouteFacts.

Import Server.

Local Open Scope string_scope.

Context `{Schema}.

Lemma applyUpdate_keeps_id (body : Body.t) (updatedAt : Z) (p : Product.t) :
  Product._id (applyUpdate body updatedAt p) = Product._id p.
Proof. reflexivity. Qed.

(** Enter a route that starts by [findById], up to the cast of the id. *)
Ltac enter_route :=
  over_mongoose;
  unfold JS.try_catch, JS.bind, findById,
    findByIdAndUpdate, deleteOne, Date_now, JS.modify;
  cbv beta.

(** Decide the ownership test of a route. *)
Ltac owner_test b :=
  match goal with
  | |- context [String.eqb ?x ?y] =>
      replace (String.eqb x y) with b
        by (symmetry;
            first [apply String.eqb_eq; congruence | apply String.eqb_neq; congruence])
  end.

Section KnownProduct.

(** The id of the request is the id of the product [P] of the collection. *)
Variables (s : State) (req : Request) (oid : ObjectId) (P : Product.t).
Hypothesis Hcast : castObjectId (params_id req) = Some oid.
Hypothesis Hfind : List.find (has_id oid) (collection s) = Some P.

Lemma put_forbidden :
  user_id req <> Product.createdBy P ->
  put req s
  = (JS.Ok (mkResponse 403 (Message "Not authorized to update this product")), s).
Proof.
  intros Hother. enter_route. rewrite Hcast. cbv iota beta. rewrite Hfind.
  owner_test false. reflexivity.
Qed.

Lemma delete_forbidden :
  user_id req <> Product.createdBy P ->
  delete req s
  = (JS.Ok (mkResponse 403 (Message "Not authorized to delete this product")), s).
Proof.
  intros Hother. enter_route. rewrite Hcast. cbv iota beta. rewrite Hfind.
  owner_test false. reflexivity.
Qed.

Lemma put_by_owner :
  user_id req = Product.createdBy P ->
  put req s
  = (JS.Ok (mkResponse 200
              (MessageProduct "Product updated successfully"
                 (Some (applyUpdate (body req) (clock s) P)))),
     mkState (updateOne oid (applyUpdate (body req) (clock s)) (collection s))
       (nextId s) (clock s)).
Proof.
  intros Howner. enter_route. rewrite Hcast. cbv iota beta. rewrite Hfind.
  owner_test true. simpl.
  rewrite (find_updateOne oid _ (applyUpdate_keeps_id _ _)), Hfind.
  reflexivity.
Qed.

Lemma delete_by_owner :
  user_id req = Product.createdBy P ->
  delete req s
  = (JS.Ok (mkResponse 200 (Message "Product deleted successfully")),
     mkState (removeOne oid (collection s)) (nextId s) (clock s)).
Proof.
  intros Howner. pose proof (find_has_id _ _ _ Hfind) as [_ Hid].
  enter_route. rewrite Hcast. cbv iota beta. rewrite Hfind.
  owner_test true. simpl. rewrite Hid. reflexivity.
Qed.

End KnownProduct.

(** C1. Let the id of a request be the id of a product P of the
    collection. For a caller other than [P.createdBy], [put] and [delete]
    answer 403 and the server, its collection included, is as it was. For
    the caller [P.createdBy] they reach the mutation: [put] answers 200 with
    P updated from the body at the time of the clock, and the collection
    holds that document in P's place; [delete] answers 200 and P's document
    is removed. *)
Theorem only_owner_mutates (s : State) (req : Request) (oid : ObjectId)
    (P : Product.t) :
  castObjectId (params_id req) = Some oid ->
  List.find (has_id oid) (collection s) = Some P ->
  (user_id req <> Product.createdBy P ->
     put req s
     = (JS.Ok (mkResponse 403 (Message "Not authorized to update this product")), s)
     /\ delete req s
        = (JS.Ok (mkResponse 403 (Message "Not authorized to delete this product")), s))
  /\ (user_id req = Product.createdBy P ->
      put req s
      = (JS.Ok (mkResponse 200
                  (MessageProduct "Product updated successfully"
                     (Some (applyUpdate (body req) (clock s) P)))),
         mkState (updateOne oid (applyUpdate (body req) (clock s)) (collection s))
           (nextId s) (clock s))
      /\ delete req s
         = (JS.Ok (mkResponse 200 (Message "Product deleted successfully")),
            mkState (removeOne oid (collection s)) (nextId s) (clock s))).
Proof.
  intros Hcast Hfind. split; intros Hcaller; split.
  - eapply put_forbidden; eassumption.
  - eapply delete_forbidden; eassumption.
  - eapply put_by_owner; eassumption.
  - eapply delete_by_owner; eassumption.
Qed.

(** C2. When the id of a request is not an ObjectId, or is the ObjectId of
    no document, [getById], [put] and [delete] answer 404 "Product not
    found" (and so no 500), and the server is as it was. *)
Theorem unknown_id_is_not_found (s : State) (req : Request) :
  castObjectId (params_id req) = None
  \/ (exists oid, castObjectId (params_id req) = Some oid
        /\ Forall (fun p => Product._id p <> oid) (collection s)) ->
  let notFound := (JS.Ok (mkResponse 404 (Message "Product not found")), s) in
  getById req s = notFound /\ put req s = notFound /\ delete req s = notFound.
Proof.
  intros Hid. cbv zeta. enter_route.
  destruct Hid as [Hbad | (oid & Hcast & Habsent)].
  - rewrite Hbad. simpl. repeat split; reflexivity.
  - apply find_has_id_none in Habsent. rewrite Hcast. cbv iota beta.
    rewrite Habsent. simpl.
    repeat split; reflexivity.
Qed.

(** A list is newest first when, of any two of its entries, the one created
    strictly before the other stands after it. *)
Definition newestFirst (l : list Product.t) : Prop :=
  forall (i j : nat) (A B : Product.t),
    l !! i = Some A -> l !! j = Some B ->
    Product.createdAt A < Product.createdAt B -> (j < i)%nat.

Lemma sorted_newestFirst (l : list Product.t) :
  StronglySorted (fun a b => is_true (CreatedAtDescending.leb a b)) l ->
  newestFirst l.
Proof.
  induction 1 as [|a l _ IH Ha]; intros i j A B Hi Hj Hlt.
  - rewrite lookup_nil in Hi. discriminate.
  - destruct i as [|i], j as [|j]; simpl in Hi, Hj.
    + inversion Hi; inversion Hj; subst. lia.
    + inversion Hi; subst A. rewrite Forall_forall in Ha.
      assert (HB : B ∈ l) by (apply list_elem_of_lookup; eauto).
      specialize (Ha B HB). unfold CreatedAtDescending.leb, is_true in Ha.
      apply Z.leb_le in Ha. lia.
    + lia.
    + specialize (IH i j A B Hi Hj Hlt). lia.
Qed.

Lemma createdAt_descending_transitive :
  Transitive (fun a b => is_true (CreatedAtDescending.leb a b)).
Proof.
  intros a b c. unfold CreatedAtDescending.leb, is_true.
  rewrite !Z.leb_le. lia.
Qed.

Lemma find_sorted (filter : Product.t -> bool) (s : State) :
  exists products,
    find filter s = (JS.Ok products, s)
    /\ products ≡ₚ List.filter filter (collection s)
    /\ newestFirst products.
Proof.
  exists (SortByCreatedAt.sort (List.filter filter (collection s))).
  split; [reflexivity |]. split.
  - symmetry. apply SortByCreatedAt.Permuted_sort.
  - apply sorted_newestFirst, SortByCreatedAt.StronglySorted_sort,
      createdAt_descending_transitive.
Qed.

(** C3. [getAll] answers with the documents of the collection and
    [getMine] with those the caller created, both newest first: of two
    products of the answer, the one created strictly before the other stands
    after it. *)
Theorem lists_are_newest_first (s : State) (req : Request) :
  exists all mine,
    getAll req s = (JS.Ok (mkResponse 200 (Products all)), s)
    /\ getMine req s = (JS.Ok (mkResponse 200 (Products mine)), s)
    /\ all ≡ₚ collection s
    /\ mine ≡ₚ List.filter
                (fun p => String.eqb (Product.createdBy p) (user_id req))
                (collection s)
    /\ newestFirst all
    /\ newestFirst mine.
Proof.
  destruct (find_sorted (fun _ => true) s) as (all & Hall & Hperm & Hsorted).
  destruct (find_sorted
              (fun p => String.eqb (Product.createdBy p) (user_id req)) s)
    as (mine & Hmine & Hperm' & Hsorted').
  exists all, mine. over_mongoose. unfold JS.try_catch, JS.bind.
  rewrite Hall, Hmine. rewrite filter_all in Hperm.
  repeat split; assumption.
Qed.

End RouteFacts.

(* ===================================================================== *)
(** * The server over time *)
(* ===================================================================== *)

Section ServerRuns.

Import Server.

Local Open Scope string_scope.

Context `{Schema}.

(** What a handler can have done to the server when it returns. *)
Inductive effect (user : string) (s : State) : State -> Prop :=
  | nothing : effect user s s
  | inserted (body : Body.t) :
      effect user s
        (mkState (collection s ++ [newDocument (nextId s) body user (clock s)])
           (N.succ (nextId s)) (clock s))
  | updated (oid : ObjectId) (body : Body.t) :
      effect user s
        (mkState (updateOne oid (applyUpdate body (clock s)) (collection s))
           (nextId s) (clock s))
  | removed (oid : ObjectId) :
      effect user s (mkState (removeOne oid (collection s)) (nextId s) (clock s)).

Lemma handler_effect (r : Route) (req : Request) (s : State) :
  effect (user_id req) s (snd (handler r req s)).
Proof.
  destruct r; simpl;
    over_mongoose;
    unfold JS.try_catch, JS.bind,
      find, findById, save, findByIdAndUpdate, deleteOne, Date_now, JS.modify,
      catchObjectId, serverError, JS.ret;
    cbv beta.
  - apply nothing.
  - destruct (castObjectId (params_id req)) as [oid|]; simpl; [| apply nothing].
    destruct (List.find (has_id oid) (collection s)); apply nothing.
  - destruct (validate (body req)); simpl; [apply inserted | apply nothing].
  - destruct (castObjectId (params_id req)) as [oid|]; simpl; [| apply nothing].
    destruct (List.find (has_id oid) (collection s)) as [p|]; [| apply nothing].
    destruct (negb _); simpl; [apply nothing | apply updated].
  - destruct (castObjectId (params_id req)) as [oid|]; simpl; [| apply nothing].
    destruct (List.find (has_id oid) (collection s)) as [p|]; [| apply nothing].
    destruct (negb _); simpl; [apply nothing | apply removed].
  - apply nothing.
Qed.

(** The invariant of the collection: every id was issued before [nextId],
    no id is repeated, and no timestamp lies ahead of the clock or of the
    document's [updatedAt]. *)
Definition consistent (s : State) : Prop :=
  Forall (fun p => (Product._id p < nextId s)%N) (collection s)
  /\ NoDup (List.map Product._id (collection s))
  /\ Forall (fun p => Product.createdAt p <= Product.updatedAt p <= clock s)
       (collection s).

Lemma consistent_initial (firstId : ObjectId) (time : Z) :
  consistent (initial firstId time).
Proof. repeat split; constructor. Qed.

Lemma consistent_tick (elapsed : N) (s : State) :
  consistent s -> consistent (tick elapsed s).
Proof.
  intros (Hids & Hnodup & Htimes). repeat split; simpl; try assumption.
  eapply Forall_impl; [exact Htimes |]. simpl. intros p. lia.
Qed.

Lemma NoDup_removeOne (oid : ObjectId) (docs : list Product.t) :
  NoDup (List.map Product._id docs) ->
  NoDup (List.map Product._id (removeOne oid docs)).
Proof.
  induction docs as [|p docs IH]; simpl; intros Hnodup; [constructor |].
  apply NoDup_cons in Hnodup as [Hnotin Hnodup].
  destruct (has_id oid p); [exact Hnodup |]. simpl.
  apply NoDup_cons. split; [| apply IH, Hnodup].
  intros Hin. apply Hnotin.
  apply list_elem_of_In, in_map_iff in Hin as (q & <- & Hq).
  apply list_elem_of_In, in_map. apply list_elem_of_In.
  eapply elem_of_sublist; [apply list_elem_of_In, Hq | apply removeOne_sublist].
Qed.

Lemma consistent_effect (user : string) (s s' : State) :
  effect user s s' -> consistent s -> consistent s'.
Proof.
  intros Heffect (Hids & Hnodup & Htimes).
  destruct Heffect as [| body | oid body | oid]; unfold consistent; simpl.
  - repeat split; assumption.
  - split; [| split].
    + apply Forall_app. split.
      * eapply Forall_impl; [exact Hids |]. simpl. intros p. lia.
      * repeat constructor. simpl. lia.
    + rewrite List.map_app. simpl. apply NoDup_app. split; [exact Hnodup |].
      split; [| repeat constructor; apply not_elem_of_nil].
      intros x Hx Hx'. apply list_elem_of_singleton in Hx'. subst x.
      apply list_elem_of_In, in_map_iff in Hx as (q & Hq & Hin).
      rewrite Forall_forall in Hids. apply list_elem_of_In in Hin.
      specialize (Hids q Hin). lia.
    + apply Forall_app. split; [exact Htimes |].
      repeat constructor; simpl; lia.
  - split; [| split].
    + apply Forall_updateOne; [intros p Hp; exact Hp | exact Hids].
    + rewrite ids_updateOne by reflexivity. exact Hnodup.
    + apply Forall_updateOne; [| exact Htimes]. simpl. intros p. lia.
  - split; [| split].
    + apply Forall_removeOne, Hids.
    + apply NoDup_removeOne, Hnodup.
    + apply Forall_removeOne, Htimes.
Qed.

Lemma consistent_serve (c : Call) (s : State) :
  consistent s -> consistent (snd (serve c s)).
Proof.
  intros Hs. unfold serve.
  eapply consistent_effect; [apply handler_effect | apply consistent_tick, Hs].
Qed.

Lemma consistent_run (calls : list Call) (s : State) :
  consistent s -> consistent (run calls s).
Proof.
  revert s. induction calls as [|c calls IH]; intros s Hs; simpl; [exact Hs |].
  apply IH, consistent_serve, Hs.
Qed.

Lemma reachable_consistent (s : State) : reachable s -> consistent s.
Proof.
  intros (firstId & time & calls & ->).
  apply consistent_run, consistent_initial.
Qed.

(** Who created the document with a given id, when the collection has
    one. *)
Definition creator (s : State) (oid : ObjectId) : option string :=
  Product.createdBy <$> List.find (has_id oid) (collection s).

Lemma find_app_other (oid : ObjectId) (docs : list Product.t) (p : Product.t) :
  Product._id p <> oid ->
  List.find (has_id oid) (docs ++ [p]) = List.find (has_id oid) docs.
Proof.
  intros Hne. induction docs as [|q docs IH]; simpl.
  - replace (has_id oid p) with false; [reflexivity |].
    symmetry. apply not_true_iff_false. rewrite has_id_eq. exact Hne.
  - destruct (has_id oid q); [reflexivity | exact IH].
Qed.

Lemma find_app_new (oid : ObjectId) (docs : list Product.t) (p : Product.t) :
  Forall (fun q => Product._id q <> oid) docs ->
  Product._id p = oid ->
  List.find (has_id oid) (docs ++ [p]) = Some p.
Proof.
  intros Hdocs Hp. induction Hdocs as [|q docs Hq _ IH]; simpl.
  - replace (has_id oid p) with true; [reflexivity |].
    symmetry. apply has_id_eq, Hp.
  - replace (has_id oid q) with false; [exact IH |].
    symmetry. apply not_true_iff_false. rewrite has_id_eq. exact Hq.
Qed.

(** One handler leaves the creator recorded under an issued id as it was,
    or leaves no document under that id. *)
Lemma creator_effect (user : string) (s s' : State) (oid : ObjectId) :
  effect user s s' -> consistent s -> (oid < nextId s)%N ->
  (oid < nextId s')%N
  /\ (creator s' oid = creator s oid \/ creator s' oid = None).
Proof.
  intros Heffect (Hids & Hnodup & _) Hissued. unfold creator.
  destruct Heffect as [| body | oid' body | oid']; simpl.
  - split; [exact Hissued | left; reflexivity].
  - split; [lia |]. left. rewrite find_app_other; [reflexivity |]. simpl. lia.
  - split; [exact Hissued |]. left.
    destruct (N.eq_dec oid oid') as [-> | Hne].
    + rewrite (find_updateOne oid' _ (applyUpdate_keeps_id _ _)).
      destruct (List.find (has_id oid') (collection s)); reflexivity.
    + rewrite (find_updateOne_other oid' _ (applyUpdate_keeps_id _ _)) by exact Hne.
      reflexivity.
  - split; [exact Hissued |].
    destruct (N.eq_dec oid oid') as [-> | Hne].
    + right. rewrite find_removeOne by exact Hnodup. reflexivity.
    + left. rewrite find_removeOne_other by exact Hne. reflexivity.
Qed.

Lemma creator_run (calls : list Call) (s : State) (oid : ObjectId) :
  consistent s -> (oid < nextId s)%N ->
  creator (run calls s) oid = creator s oid \/ creator (run calls s) oid = None.
Proof.
  revert s. induction calls as [|c calls IH]; intros s Hs Hissued; simpl.
  - left. reflexivity.
  - pose proof (consistent_tick (elapsed c) s Hs) as Hticked.
    destruct (creator_effect (caller c) (tick (elapsed c) s) (snd (serve c s)) oid)
      as [Hissued' Hstep];
      [exact (handler_effect (route c) (mkRequest (id c) (payload c) (caller c))
                (tick (elapsed c) s))
      | exact Hticked | exact Hissued |].
    destruct (IH (snd (serve c s)) (consistent_serve c s Hs) Hissued') as [Hrest | Hrest].
    + rewrite Hrest. exact Hstep.
    + right. exact Hrest.
Qed.

(** C4. On a server that grew from an empty collection: an update of an
    existing product P by its owner answers 200 with a document P' that the
    collection then holds under P's id, whose [updatedAt] is not before that
    of P and whose [createdBy] and [_id] are those of P. And after any
    sequence of requests, a document that is still found under P's id has
    P's [createdBy]. *)
Theorem update_keeps_identity (s : State) :
  reachable s ->
  (forall (c : Call) (oid : ObjectId) (P : Product.t),
     route c = Put ->
     castObjectId (id c) = Some oid ->
     List.find (has_id oid) (collection s) = Some P ->
     caller c = Product.createdBy P ->
     exists P',
       fst (serve c s)
       = JS.Ok (mkResponse 200
                  (MessageProduct "Product updated successfully" (Some P')))
       /\ List.find (has_id oid) (collection (snd (serve c s))) = Some P'
       /\ Product.updatedAt P <= Product.updatedAt P'
       /\ Product.createdBy P' = Product.createdBy P
       /\ Product._id P' = Product._id P)
  /\ (forall (calls : list Call) (oid : ObjectId) (P P' : Product.t),
        List.find (has_id oid) (collection s) = Some P ->
        List.find (has_id oid) (collection (run calls s)) = Some P' ->
        Product.createdBy P' = Product.createdBy P).
Proof.
  intros Hreach. pose proof (reachable_consistent s Hreach) as Hs.
  destruct Hs as (Hids & Hnodup & Htimes). split.
  - intros c oid P Hroute Hcast Hfind Howner.
    exists (applyUpdate (payload c) (clock s + Z.of_N (elapsed c)) P).
    unfold serve. rewrite Hroute. simpl handler.
    rewrite (put_by_owner (tick (elapsed c) s)
               (mkRequest (id c) (payload c) (caller c)) oid P Hcast Hfind Howner).
    simpl. rewrite (find_updateOne oid _ (applyUpdate_keeps_id _ _)), Hfind.
    repeat split.
    apply find_has_id in Hfind as [Hin _]. rewrite Forall_forall in Htimes.
    specialize (Htimes P Hin). lia.
  - intros calls oid P P' Hfind Hfind'.
    assert (Hissued : (oid < nextId s)%N).
    { apply find_has_id in Hfind as [Hin <-]. rewrite Forall_forall in Hids.
      apply Hids, Hin. }
    destruct (creator_run calls s oid) as [Hsame | Hgone];
      [repeat split; assumption | exact Hissued | |];
      unfold creator in *; rewrite Hfind' in *; [rewrite Hfind in Hsame |];
      simpl in *; congruence.
Qed.

(** C5. On a server that grew from an empty collection, creating a
    product from a body that passes the schema's validators answers 201
    with a document P; fetching the id P is written with, right after,
    answers 200 with P. The six fields of P are those of the body,
    [createdBy] is the caller, [_id] is the id the driver generated, and the
    two timestamps are equal. *)
Theorem create_then_fetch (s : State) (req : Request) :
  reachable s ->
  validate (body req) = true ->
  exists (P : Product.t) (s' : State),
    post req s
    = (JS.Ok (mkResponse 201
                (MessageProduct "Product created successfully" (Some P))), s')
    /\ (forall req',
          params_id req' = toString (Product._id P) ->
          getById req' s' = (JS.Ok (mkResponse 200 (OneProduct P)), s'))
    /\ Product.name P = Body.name (body req)
    /\ Product.description P = Body.description (body req)
    /\ Product.price P = Body.price (body req)
    /\ Product.category P = Body.category (body req)
    /\ Product.imageUrl P = Body.imageUrl (body req)
    /\ Product.inStock P = Body.inStock (body req)
    /\ Product.createdBy P = user_id req
    /\ Product._id P = nextId s
    /\ Product.createdAt P = Product.updatedAt P.
Proof.
  intros Hreach Hvalid.
  destruct (reachable_consistent s Hreach) as (Hids & _ & _).
  exists (newDocument (nextId s) (body req) (user_id req) (clock s)).
  eexists. split; [| split; [| repeat split]].
  - over_mongoose. unfold JS.try_catch, JS.bind, save. cbv beta. rewrite Hvalid. reflexivity.
  - intros req' Hid. over_mongoose. unfold JS.try_catch, JS.bind, findById.
    cbv beta.
    rewrite Hid. simpl Product._id. rewrite cast_toString. cbv iota beta.
    cbn [collection]. rewrite find_app_new; [reflexivity | | reflexivity].
    eapply Forall_impl; [exact Hids |]. simpl. intros p. lia.
Qed.

End ServerRuns.

(* ===================================================================== *)
(** * A server with two products *)
(* ===================================================================== *)

Section Demo.

Import Server.

Local Open Scope string_scope.

Definition lamp : Body.t :=
  Body.mk "Desk lamp" "Warm light" (JS.ofZ 12) "lamp.png" "Furniture" true.

Definition chair : Body.t :=
  Body.mk "Office chair" "Lumbar support" (JS.ofZ 299) "chair.png" "Furniture" false.

(** alice creates the lamp at time 1000 under the id [a]; five milliseconds
    later bob creates the chair under the id [b]. *)
Definition demoCalls : list Call :=
  [mkCall 0 "alice" Post EmptyString lamp; mkCall 5 "bob" Post EmptyString chair].

Definition demo : State := run demoCalls (initial 10%N 1000).

Definition aliceLamp : Product.t := newDocument 10%N lamp "alice" 1000.

Definition bobChair : Product.t := newDocument 11%N chair "bob" 1005.

Lemma demo_collection : collection demo = [aliceLamp; bobChair].
Proof. reflexivity. Qed.

Lemma demo_reachable : reachable demo.
Proof. exists 10%N, 1000, demoCalls. reflexivity. Qed.

Lemma only_owner_mutates_witness :
  (put (mkRequest "a" chair "bob") demo
   = (JS.Ok (mkResponse 403 (Message "Not authorized to update this product")), demo)
   /\ delete (mkRequest "a" chair "bob") demo
      = (JS.Ok (mkResponse 403 (Message "Not authorized to delete this product")), demo))
  /\ collection (snd (put (mkRequest "a" chair "alice") demo))
     = [applyUpdate chair 1005 aliceLamp; bobChair]
  /\ collection (snd (delete (mkRequest "a" chair "alice") demo)) = [bobChair].
Proof.
  split.
  - apply (only_owner_mutates demo (mkRequest "a" chair "bob") 10%N aliceLamp);
      [reflexivity | reflexivity | discriminate].
  - destruct (only_owner_mutates demo (mkRequest "a" chair "alice") 10%N aliceLamp)
      as [_ Howner]; [reflexivity | reflexivity |].
    destruct Howner as [Hput Hdelete]; [reflexivity |].
    rewrite Hput, Hdelete. split; reflexivity.
Defined.

Lemma unknown_id_is_not_found_witness :
  getById (mkRequest "zz" lamp "alice") demo
  = (JS.Ok (mkResponse 404 (Message "Product not found")), demo)
  /\ delete (mkRequest "ff" lamp "alice") demo
     = (JS.Ok (mkResponse 404 (Message "Product not found")), demo).
Proof.
  split.
  - apply (unknown_id_is_not_found demo (mkRequest "zz" lamp "alice")).
    left. reflexivity.
  - apply (unknown_id_is_not_found demo (mkRequest "ff" lamp "alice")).
    right. exists 255%N. split; [reflexivity |].
    rewrite demo_collection. repeat constructor; discriminate.
Defined.

Lemma update_keeps_identity_witness :
  (exists P',
     List.find (has_id 10%N)
       (collection (snd (serve (mkCall 3 "alice" Put "a" chair) demo)))
     = Some P'
     /\ 1000 <= Product.updatedAt P'
     /\ Product.createdBy P' = "alice"
     /\ Product._id P' = 10%N)
  /\ (forall P',
        List.find (has_id 10%N)
          (collection (run [mkCall 1 "bob" Delete "a" lamp;
                            mkCall 1 "alice" Put "a" chair;
                            mkCall 1 "bob" Post EmptyString lamp] demo))
        = Some P' ->
        Product.createdBy P' = "alice").
Proof.
  destruct (update_keeps_identity demo demo_reachable) as [Hupdate Hruns]. split.
  - destruct (Hupdate (mkCall 3 "alice" Put "a" chair) 10%N aliceLamp)
      as (P' & _ & Hfound & Htime & Hcreator & Hid); try reflexivity.
    exists P'. split; [exact Hfound |]. split; [exact Htime |].
    split; [exact Hcreator | exact Hid].
  - intros P' Hfound.
    apply (Hruns _ 10%N aliceLamp P' eq_refl Hfound).
Defined.

Lemma create_then_fetch_witness :
  exists (P : Product.t) (s' : State),
    post (mkRequest EmptyString lamp "carol") demo
    = (JS.Ok (mkResponse 201
                (MessageProduct "Product created successfully" (Some P))), s')
    /\ getById (mkRequest "c" chair "dave") s'
       = (JS.Ok (mkResponse 200 (OneProduct P)), s')
    /\ Product.createdBy P = "carol"
    /\ Product.createdAt P = Product.updatedAt P.
Proof.
  destruct (create_then_fetch demo (mkRequest EmptyString lamp "carol")
              demo_reachable eq_refl)
    as (P & s' & Hpost & Hfetch & _ & _ & _ & _ & _ & _ & Hcreator & Hid & Htimes).
  exists P, s'. split; [exact Hpost |]. split; [| split; assumption].
  apply Hfetch. rewrite Hid. reflexivity.
Defined.

End Demo.

(* ===================================================================== *)
(** * More about the mock service *)
(* ===================================================================== *)

Section MockServiceLookups.

Import Client.

Local Open Scope string_scope.
Local Open Scope list_scope.

Lemma find_before (id : string) (before rest : list Product.t) :
  Forall (fun q => Product.id q <> id) before ->
  List.find (ProductService.has_id id) (before ++ rest)
  = List.find (ProductService.has_id id) rest.
Proof.
  induction 1 as [|q before Hq _ IH]; simpl; [reflexivity |].
  apply has_id_false in Hq. rewrite Hq. exact IH.
Qed.

Lemma find_absent (id : string) (arr : list Product.t) :
  Forall (fun q => Product.id q <> id) arr ->
  List.find (ProductService.has_id id) arr = None.
Proof.
  intros Hall. rewrite <- (app_nil_r arr). rewrite find_before by exact Hall.
  reflexivity.
Qed.

(** Replacing or dropping a product does not disturb the lookup of another
    id. *)
Lemma find_other_replaced (id other : string) (before after : list Product.t)
    (p p' : Product.t) :
  Product.id p = id -> Product.id p' = id -> other <> id ->
  List.find (ProductService.has_id other) (before ++ p' :: after)
  = List.find (ProductService.has_id other) (before ++ p :: after).
Proof.
  intros Hp Hp' Hne. induction before as [|q before IH]; simpl.
  - replace (ProductService.has_id other p') with false
      by (symmetry; apply has_id_false; congruence).
    replace (ProductService.has_id other p) with false
      by (symmetry; apply has_id_false; congruence).
    reflexivity.
  - destruct (ProductService.has_id other q); [reflexivity | exact IH].
Qed.

Lemma find_other_dropped (id other : string) (before after : list Product.t)
    (p : Product.t) :
  Product.id p = id -> other <> id ->
  List.find (ProductService.has_id other) (before ++ after)
  = List.find (ProductService.has_id other) (before ++ p :: after).
Proof.
  intros Hp Hne. induction before as [|q before IH]; simpl.
  - replace (ProductService.has_id other p) with false
      by (symmetry; apply has_id_false; congruence).
    reflexivity.
  - destruct (ProductService.has_id other q); [reflexivity | exact IH].
Qed.

(** Where ids are not repeated, the products around the one with a given id
    do not have it. *)
Lemma unique_id_split (id : string) (before after : list Product.t) (p : Product.t) :
  NoDup (List.map Product.id (before ++ p :: after)) ->
  Product.id p = id ->
  Forall (fun q => Product.id q <> id) before
  /\ Forall (fun q => Product.id q <> id) after.
Proof.
  intros Hnodup Hp. rewrite List.map_app in Hnodup. simpl in Hnodup.
  apply NoDup_app in Hnodup as (_ & Hdisjoint & Htail).
  apply NoDup_cons in Htail as [Hnotin _].
  split; apply Forall_forall; intros q Hq Heq.
  - apply (Hdisjoint (Product.id q)).
    + apply list_elem_of_In, in_map, list_elem_of_In, Hq.
    + rewrite Heq, <- Hp. apply list_elem_of_here.
  - apply Hnotin. rewrite Hp, <- Heq.
    apply list_elem_of_In, in_map, list_elem_of_In, Hq.
Qed.

(** What a call of [updateProduct] or [deleteProduct] that resolved did. *)
Lemma updateProduct_resolved (now id : string) (data : ProductFormData.t)
    (arr arr' : list Product.t) (p' : Product.t) :
  ProductService.updateProduct now id data arr = (JS.Ok p', arr') ->
  exists before p after,
    arr = before ++ p :: after
    /\ Product.id p = id
    /\ Forall (fun q => Product.id q <> id) before
    /\ p' = ProductService.spread p data now
    /\ arr' = before ++ p' :: after.
Proof.
  intros Hcall.
  destruct (first_with_id id arr) as [Hnone | (before & p & after & -> & Hp & Hb)].
  - rewrite updateProduct_absent in Hcall by exact Hnone. discriminate.
  - rewrite (updateProduct_present now id data before after p Hp Hb) in Hcall.
    inversion Hcall; subst. exists before, p, after.
    repeat split; assumption.
Qed.

Lemma deleteProduct_resolved (id : string) (arr arr' : list Product.t) (r : bool) :
  ProductService.deleteProduct id arr = (JS.Ok r, arr') ->
  exists before p after,
    arr = before ++ p :: after
    /\ Product.id p = id
    /\ Forall (fun q => Product.id q <> id) before
    /\ arr' = before ++ after.
Proof.
  intros Hcall.
  destruct (first_with_id id arr) as [Hnone | (before & p & after & -> & Hp & Hb)].
  - rewrite deleteProduct_absent in Hcall by exact Hnone. discriminate.
  - rewrite (deleteProduct_present id before after p Hp Hb) in Hcall.
    inversion Hcall; subst. exists before, p, after.
    repeat split; assumption.
Qed.

(** X1. [updateProduct] on an id some product has resolves with that
    product overwritten by the form data: the first product with the id is
    replaced in place by the product that has its [id] and [createdAt], the
    five fields of the form data (name, description, category, price and
    rating) and [now] as [updatedAt]; every other product, the length of the
    array and the order of the ids are as before. On an id no product has, it rejects with
    "Product not found" and the array is as it was. *)
Theorem updateProduct_replaces_first (now id : string) (data : ProductFormData.t)
    (mockProducts : list Product.t) :
  ((exists p, p ∈ mockProducts /\ Product.id p = id) ->
   exists before p after updated,
     mockProducts = before ++ p :: after
     /\ Product.id p = id
     /\ Forall (fun q => Product.id q <> id) before
     /\ ProductService.updateProduct now id data mockProducts
        = (JS.Ok updated, before ++ updated :: after)
     /\ updated
        = Product.mk id (ProductFormData.name data)
            (ProductFormData.description data) (ProductFormData.category data)
            (ProductFormData.price data) (ProductFormData.rating data)
            (Product.createdAt p) now
     /\ List.map Product.id (before ++ updated :: after)
        = List.map Product.id mockProducts)
  /\ ((forall p, p ∈ mockProducts -> Product.id p <> id) ->
      ProductService.updateProduct now id data mockProducts
      = (JS.Throw "Product not found", mockProducts)).
Proof.
  split.
  - intros (p0 & Hin & Hp0).
    destruct (first_with_id id mockProducts)
      as [Hall | (before & p & after & -> & Hp & Hb)].
    + rewrite Forall_forall in Hall. destruct (Hall p0 Hin Hp0).
    + exists before, p, after, (ProductService.spread p data now).
      split; [reflexivity |]. split; [exact Hp |]. split; [exact Hb |].
      split; [apply updateProduct_present; assumption |].
      split; [unfold ProductService.spread; rewrite Hp; reflexivity |].
      rewrite !List.map_app. simpl. rewrite Hp. reflexivity.
  - intros Hnone. apply updateProduct_absent, Forall_forall, Hnone.
Qed.

Lemma updateProduct_replaces_first_witness :
  (exists updated arr',
     ProductService.updateProduct "2024-05-01T00:00:00Z" "3" someData
       ProductService.mockProducts = (JS.Ok updated, arr')
     /\ Product.createdAt updated = "2023-03-05T14:15:00Z"
     /\ List.map Product.id arr' = ["1"; "2"; "3"; "4"; "5"; "6"; "7"; "8"])
  /\ ProductService.updateProduct "2024-05-01T00:00:00Z" "42" someData
       ProductService.mockProducts
     = (JS.Throw "Product not found", ProductService.mockProducts).
Proof.
  destruct (updateProduct_replaces_first "2024-05-01T00:00:00Z" "3" someData
              ProductService.mockProducts) as [Hpresent _].
  destruct (updateProduct_replaces_first "2024-05-01T00:00:00Z" "42" someData
              ProductService.mockProducts) as [_ Habsent].
  split.
  - destruct Hpresent
      as (before & p & after & updated & Harr & Hp & Hb & Hcall & Hupdated & Hids).
    + exists (ProductService.product "3" "Samsung 4K Smart TV"
                "65-inch QLED display with smart features" "Electronics" 1299 4.3
                "2023-03-05T14:15:00Z").
      split; [| reflexivity]. unfold ProductService.mockProducts.
      do 2 apply list_elem_of_further. apply list_elem_of_here.
    + exists updated, (before ++ updated :: after).
      split; [exact Hcall |]. split; [| rewrite Hids; reflexivity].
      rewrite Hupdated. simpl Product.createdAt.
      assert (Hfind : List.find (ProductService.has_id "3") ProductService.mockProducts
                      = Some p).
      { rewrite Harr, find_before by exact Hb. simpl.
        apply has_id_true in Hp. rewrite Hp. reflexivity. }
      vm_compute in Hfind. inversion Hfind. reflexivity.
  - apply Habsent. intros p Hin. unfold ProductService.mockProducts in Hin.
    repeat (apply elem_of_cons in Hin as [-> | Hin]; [discriminate |]).
    apply elem_of_nil in Hin. destruct Hin.
Defined.

End MockServiceLookups.

Section MockServiceRoundTrips.

Import Client.

Local Open Scope string_scope.
Local Open Scope list_scope.

(** What [getProductById] resolves with. *)
Definition lookup_id (id : string) (arr : list Product.t) : option Product.t :=
  match fst (ProductService.getProductById id arr) with
  | JS.Ok found => found
  | JS.Throw _ => None
  end.

(** X2. After an [updateProduct] that resolved, [getProductById] on the
    same id resolves with the product the update resolved with, and on any
    other id with what it resolved with before the update. *)
Theorem update_then_get (now id : string) (data : ProductFormData.t)
    (arr arr' : list Product.t) (updated : Product.t) :
  ProductService.updateProduct now id data arr = (JS.Ok updated, arr') ->
  ProductService.getProductById id arr' = (JS.Ok (Some updated), arr')
  /\ forall other, other <> id ->
       fst (ProductService.getProductById other arr')
       = fst (ProductService.getProductById other arr).
Proof.
  intros Hcall.
  apply updateProduct_resolved in Hcall
    as (before & p & after & -> & Hp & Hb & -> & ->).
  unfold ProductService.getProductById. simpl. split.
  - rewrite find_before by exact Hb. simpl.
    replace (ProductService.has_id id (ProductService.spread p data now)) with true
      by (symmetry; apply has_id_true; exact Hp).
    reflexivity.
  - intros other Hne. f_equal.
    apply (find_other_replaced id); [exact Hp | exact Hp | exact Hne].
Qed.

Lemma update_then_get_witness :
  exists updated arr',
    ProductService.updateProduct "2024-05-01T00:00:00Z" "3" someData
      ProductService.mockProducts = (JS.Ok updated, arr')
    /\ ProductService.getProductById "3" arr' = (JS.Ok (Some updated), arr')
    /\ fst (ProductService.getProductById "5" arr')
       = fst (ProductService.getProductById "5" ProductService.mockProducts).
Proof.
  eexists. eexists. split; [reflexivity |].
  destruct (update_then_get "2024-05-01T00:00:00Z" "3" someData
              ProductService.mockProducts _ _ eq_refl) as [Hsame Hother].
  split; [exact Hsame | apply Hother; discriminate].
Defined.

(** X3. [createProduct] never rejects and appends the new product. The
    product can be fetched by its id only when no product had that id: when
    the random id is already taken, [getProductById] goes on resolving with
    the older product. *)
Theorem create_then_get (random : N) (now1 now2 : string)
    (data : ProductFormData.t) (arr : list Product.t) :
  let created := ProductService.newProduct (pretty random) data now1 now2 in
  ProductService.createProduct random now1 now2 data arr
  = (JS.Ok created, arr ++ [created])
  /\ ((forall p, p ∈ arr -> Product.id p <> pretty random) ->
      lookup_id (pretty random) (arr ++ [created]) = Some created)
  /\ (forall older,
        lookup_id (pretty random) arr = Some older ->
        lookup_id (pretty random) (arr ++ [created]) = Some older)
  /\ (forall other, other <> pretty random ->
        lookup_id other (arr ++ [created]) = lookup_id other arr).
Proof.
  intros created. unfold lookup_id, ProductService.getProductById. simpl.
  split; [reflexivity |]. split; [| split].
  - intros Hfresh. rewrite find_before by (apply Forall_forall, Hfresh).
    simpl. unfold ProductService.has_id. simpl. rewrite String.eqb_refl. reflexivity.
  - intros older Hfound. induction arr as [|q arr IH]; simpl in *; [discriminate |].
    destruct (ProductService.has_id (pretty random) q); [exact Hfound | apply IH, Hfound].
  - intros other Hne. induction arr as [|q arr IH]; simpl.
    + replace (ProductService.has_id other created) with false; [reflexivity |].
      symmetry. apply has_id_false. simpl. congruence.
    + destruct (ProductService.has_id other q); [reflexivity | exact IH].
Qed.

(** X4. Where no two products share an id, after a [deleteProduct] that
    resolved [getProductById] on that id resolves with [undefined], on any
    other id with what it resolved with before, and still no two products
    share an id. *)
Theorem delete_then_get (id : string) (arr arr' : list Product.t) (r : bool) :
  NoDup (List.map Product.id arr) ->
  ProductService.deleteProduct id arr = (JS.Ok r, arr') ->
  lookup_id id arr' = None
  /\ (forall other, other <> id -> lookup_id other arr' = lookup_id other arr)
  /\ NoDup (List.map Product.id arr').
Proof.
  intros Hnodup Hcall.
  apply deleteProduct_resolved in Hcall as (before & p & after & -> & Hp & _ & ->).
  destruct (unique_id_split id before after p Hnodup Hp) as [Hb Ha].
  unfold lookup_id, ProductService.getProductById. simpl. split; [| split].
  - apply find_absent, Forall_app. split; assumption.
  - intros other Hne. apply (find_other_dropped id); assumption.
  - rewrite List.map_app in *. simpl in Hnodup.
    apply NoDup_app in Hnodup as (H1 & H2 & H3).
    apply NoDup_cons in H3 as [_ H3].
    apply NoDup_app. split; [exact H1 |]. split; [| exact H3].
    intros x Hx Hx'. apply (H2 x Hx). apply list_elem_of_further, Hx'.
Qed.

Lemma mock_ids_unique : NoDup (List.map Product.id ProductService.mockProducts).
Proof.
  simpl.
  repeat (apply NoDup_cons_2;
          [rewrite ?elem_of_cons, elem_of_nil; intuition discriminate |]).
  apply NoDup_nil_2.
Qed.

Lemma delete_then_get_witness :
  lookup_id "3" (snd (ProductService.deleteProduct "3" ProductService.mockProducts))
  = None
  /\ lookup_id "4" (snd (ProductService.deleteProduct "3" ProductService.mockProducts))
     = lookup_id "4" ProductService.mockProducts.
Proof.
  destruct (delete_then_get "3" ProductService.mockProducts _ true
              mock_ids_unique eq_refl)
    as (Hgone & Hother & _).
  split; [exact Hgone | apply Hother; discriminate].
Defined.

Lemma existsb_eqb (x : string) (seen : list string) :
  existsb (String.eqb x) seen = true <-> x ∈ seen.
Proof.
  rewrite existsb_exists. split.
  - intros (y & Hy & Heq). apply String.eqb_eq in Heq. subst y.
    apply list_elem_of_In, Hy.
  - intros Hin. exists x. split; [apply list_elem_of_In, Hin | apply String.eqb_refl].
Qed.

Lemma distinct_spec (xs seen : list string) :
  NoDup (ProductService.distinct seen xs)
  /\ forall x, x ∈ ProductService.distinct seen xs <-> x ∈ xs /\ x ∉ seen.
Proof.
  revert seen. induction xs as [|y xs IH]; intros seen; simpl.
  - split; [constructor |]. intros x. rewrite elem_of_nil. tauto.
  - destruct (existsb (String.eqb y) seen) eqn:Hseen.
    + apply existsb_eqb in Hseen. destruct (IH seen) as [Hnodup Hin].
      split; [exact Hnodup |]. intros x. rewrite Hin, elem_of_cons.
      split; [tauto |]. intros [[-> | Hx] Hnot]; [contradiction | tauto].
    + apply not_true_iff_false in Hseen. rewrite existsb_eqb in Hseen.
      destruct (IH (y :: seen)) as [Hnodup Hin]. split.
      * apply NoDup_cons. split; [| exact Hnodup].
        rewrite Hin, elem_of_cons. tauto.
      * intros x. rewrite !elem_of_cons, Hin, elem_of_cons.
        destruct (decide (x = y)) as [-> | Hne]; [tauto |]. tauto.
Qed.

(** X5. [getCategories] resolves with every category some product has,
    each once, and with nothing else; it leaves the array alone. *)
Theorem getCategories_distinct (arr : list Product.t) :
  exists categories,
    ProductService.getCategories arr = (JS.Ok categories, arr)
    /\ NoDup categories
    /\ forall c, c ∈ categories <-> exists p, p ∈ arr /\ Product.category p = c.
Proof.
  eexists. split; [reflexivity |].
  destruct (distinct_spec (List.map Product.category arr) []) as [Hnodup Hin].
  split; [exact Hnodup |]. intros c. rewrite Hin. split.
  - intros [Hc _]. apply list_elem_of_In, in_map_iff in Hc as (p & Hp & Hin').
    exists p. split; [apply list_elem_of_In, Hin' | exact Hp].
  - intros (p & Hp & <-). split; [| apply not_elem_of_nil].
    apply list_elem_of_In, in_map, list_elem_of_In, Hp.
Qed.

End MockServiceRoundTrips.

(* ===================================================================== *)
(** * More about the page *)
(* ===================================================================== *)

Section PageAndStore.

Import Client.

Local Open Scope string_scope.
Local Open Scope list_scope.

Lemma map_replace_unique (id : string) (before after : list Product.t)
    (p p' : Product.t) :
  Forall (fun q => Product.id q <> id) before ->
  Forall (fun q => Product.id q <> id) after ->
  Product.id p = id ->
  List.map (fun q => if String.eqb (Product.id q) id then p' else q)
    (before ++ p :: after)
  = before ++ p' :: after.
Proof.
  intros Hb Ha Hp.
  assert (Hkeep : forall l, Forall (fun q => Product.id q <> id) l ->
            List.map (fun q => if String.eqb (Product.id q) id then p' else q) l = l).
  { induction 1 as [|q l Hq _ IH]; simpl; [reflexivity |].
    apply String.eqb_neq in Hq. rewrite Hq, IH. reflexivity. }
  rewrite List.map_app. simpl. rewrite (Hkeep before Hb), (Hkeep after Ha).
  apply String.eqb_eq in Hp. rewrite Hp. reflexivity.
Qed.

Lemma filter_drop_unique (id : string) (before after : list Product.t)
    (p : Product.t) :
  Forall (fun q => Product.id q <> id) before ->
  Forall (fun q => Product.id q <> id) after ->
  Product.id p = id ->
  List.filter (fun q => negb (String.eqb (Product.id q) id)) (before ++ p :: after)
  = before ++ after.
Proof.
  intros Hb Ha Hp.
  assert (Hkeep : forall l, Forall (fun q => Product.id q <> id) l ->
            List.filter (fun q => negb (String.eqb (Product.id q) id)) l = l).
  { induction 1 as [|q l Hq _ IH]; simpl; [reflexivity |].
    apply String.eqb_neq in Hq. rewrite Hq, IH. reflexivity. }
  rewrite List.filter_app. simpl. rewrite (Hkeep before Hb), (Hkeep after Ha).
  apply String.eqb_eq in Hp. rewrite Hp. reflexivity.
Qed.

(** X6. On the mock service, a page that holds an array of its own equal
    to the service's array, in which no two products share an id, holds an
    array equal to the service's array again after [handleProductSubmit]
    and after [confirmDelete], whether the call resolved or rejected. *)
Theorem page_follows_store (random : N) (now1 now2 now : string)
    (data : ProductFormData.t) (w : World) :
  products (page w) = Own (store w) ->
  NoDup (List.map Product.id (store w)) ->
  let api := mockApi random now1 now2 now in
  shown (snd (handleProductSubmit api data w))
  = store (snd (handleProductSubmit api data w))
  /\ shown (snd (confirmDelete api w)) = store (snd (confirmDelete api w)).
Proof.
  intros Hown Hnodup api. split.
  - destruct (submitCall api data w) as [[p' | message] store'] eqn:Hcall.
    + destruct (handleProductSubmit_resolved api data w p' store' Hcall)
        as [Hproducts Hstore].
      unfold shown, read. rewrite Hproducts, Hstore, Hown.
      unfold submitCall in Hcall.
      destruct (currentProduct (page w)) as [cur|]; simpl in Hcall.
      * apply updateProduct_resolved in Hcall
          as (before & p & after & Harr & Hp & _ & _ & ->).
        rewrite Harr in *.
        destruct (unique_id_split _ before after p Hnodup Hp) as [Hb Ha].
        apply map_replace_unique; assumption.
      * unfold ProductService.createProduct in Hcall. inversion Hcall. reflexivity.
    + destruct (handleProductSubmit_rejected api data w message store' Hcall)
        as [Hproducts Hstore].
      unfold shown, read. rewrite Hproducts, Hstore, Hown.
      destruct (mock_rejection_keeps_store random now1 now2 now (store w) store' message)
        as (Hcreate & Hupdate & _).
      unfold submitCall in Hcall. destruct (currentProduct (page w)) as [cur|].
      * symmetry. eapply Hupdate, Hcall.
      * destruct (Hcreate data Hcall).
  - destruct (productToDelete (page w)) as [id|] eqn:Hid;
      [destruct (JS.truthy_string id) eqn:Htruthy |].
    + destruct (Api.deleteProduct api id (store w)) as [[r | message] store'] eqn:Hcall.
      * destruct (confirmDelete_resolved api w id r store' Hid Htruthy Hcall)
          as [Hproducts Hstore].
        unfold shown, read. rewrite Hproducts, Hstore, Hown.
        apply deleteProduct_resolved in Hcall
          as (before & p & after & Harr & Hp & _ & ->).
        rewrite Harr in *.
        destruct (unique_id_split _ before after p Hnodup Hp) as [Hb Ha].
        apply filter_drop_unique; assumption.
      * destruct (confirmDelete_rejected api w id message store' Hid Htruthy Hcall)
          as [Hproducts Hstore].
        unfold shown, read. rewrite Hproducts, Hstore, Hown.
        destruct (mock_rejection_keeps_store random now1 now2 now (store w) store' message)
          as (_ & _ & Hdelete).
        symmetry. eapply Hdelete, Hcall.
    + unfold confirmDelete. rewrite Hid, Htruthy. simpl.
      unfold shown, read. rewrite Hown. reflexivity.
    + unfold confirmDelete. rewrite Hid. simpl.
      unfold shown, read. rewrite Hown. reflexivity.
Qed.

(** A page that copied the eight products, editing the third and about to
    delete the fifth. *)
Definition syncedWorld : World :=
  mkWorld ProductService.mockProducts
    (setProductToDelete (Some "5")
       (setCurrentProduct (Some (priced "3" 10))
          (setProducts (Own ProductService.mockProducts) initialPage))).

Lemma page_follows_store_witness :
  shown (snd (handleProductSubmit demoApi someData syncedWorld))
  = store (snd (handleProductSubmit demoApi someData syncedWorld))
  /\ List.map Product.id (shown (snd (confirmDelete demoApi syncedWorld)))
     = ["1"; "2"; "3"; "4"; "6"; "7"; "8"].
Proof.
  destruct (page_follows_store 7 "2024-01-01T00:00:00Z" "2024-01-01T00:00:00Z"
              "2024-01-01T00:00:01Z" someData syncedWorld eq_refl mock_ids_unique)
    as [Hsubmit Hdelete].
  split; [exact Hsubmit | unfold demoApi; rewrite Hdelete; reflexivity].
Defined.

(** X7. After [loadData] on the mock service the page holds the service's
    own array. A creation pushes the new product onto that array, and the
    handler then appends the product to what the page holds: the service has
    the new product once and the page shows it twice. *)
Theorem shared_array_shows_created_twice (random : N) (now1 now2 now : string)
    (data : ProductFormData.t) (w : World) :
  currentProduct (page w) = None ->
  let api := mockApi random now1 now2 now in
  let created := ProductService.newProduct (pretty random) data now1 now2 in
  let loaded := snd (loadData api w) in
  shown loaded = store w
  /\ store (snd (handleProductSubmit api data loaded)) = store w ++ [created]
  /\ shown (snd (handleProductSubmit api data loaded))
     = store w ++ [created; created].
Proof.
  intros Hnone api created loaded.
  assert (Hcall : submitCall api data loaded = (JS.Ok created, store w ++ [created])).
  { unfold submitCall, loaded. simpl. rewrite Hnone. reflexivity. }
  destruct (handleProductSubmit_resolved api data loaded created _ Hcall)
    as [Hproducts Hstore].
  split; [reflexivity |]. split; [exact Hstore |].
  unfold shown, read. rewrite Hproducts.
  replace (currentProduct (page loaded)) with (@None Product.t)
    by (symmetry; exact Hnone).
  simpl. rewrite <- app_assoc. reflexivity.
Qed.

Lemma shared_array_shows_created_twice_witness :
  let w := mkWorld ProductService.mockProducts initialPage in
  let after := snd (handleProductSubmit demoApi someData (snd (loadData demoApi w))) in
  length (store after) = 9%nat /\ length (shown after) = 10%nat.
Proof.
  intros w after.
  destruct (shared_array_shows_created_twice 7 "2024-01-01T00:00:00Z"
              "2024-01-01T00:00:00Z" "2024-01-01T00:00:01Z" someData w eq_refl)
    as (_ & Hstore & Hshown).
  unfold after, demoApi. rewrite Hstore, Hshown. split; reflexivity.
Defined.

End PageAndStore.

Section PageBookkeeping.

Import Client.

Local Open Scope string_scope.
Local Open Scope list_scope.

Ltac run_handler :=
  unfold handleProductSubmit, confirmDelete, loadData, JS.finally, JS.try_catch,
    JS.bind, await, setState, updateProducts, JS.modify, JS.ret;
  cbv beta.

(** X8. [handleProductSubmit] never throws and always ends with
    [isSubmitting] false and one more toast. When the call resolved the form
    is closed and the toast reports the update or the creation; when it
    rejected the form is left as it was and the toast reports the failure of
    the update or of the creation. The filters, the product being edited and
    the id to delete are not touched. *)
Theorem handleProductSubmit_settles (api : Api.t) (data : ProductFormData.t)
    (w : World) :
  let editing := match currentProduct (page w) with Some _ => true | None => false end in
  let after := page (snd (handleProductSubmit api data w)) in
  fst (handleProductSubmit api data w) = JS.Ok tt
  /\ isSubmitting after = false
  /\ filters after = filters (page w)
  /\ currentProduct after = currentProduct (page w)
  /\ productToDelete after = productToDelete (page w)
  /\ match fst (submitCall api data w) with
     | JS.Ok _ =>
         isFormOpen after = false
         /\ toasts after
            = toasts (page w)
              ++ [(success, if editing then "Product updated successfully"
                            else "Product created successfully")]
     | JS.Throw _ =>
         isFormOpen after = isFormOpen (page w)
         /\ toasts after
            = toasts (page w)
              ++ [(error, if editing then "Failed to update product"
                          else "Failed to create product")]
     end.
Proof.
  unfold submitCall. run_handler.
  destruct (currentProduct (page w)) as [cur|] eqn:Hcur; simpl.
  - destruct (Api.updateProduct api (Product.id cur) data (store w)) as [[p | e] s'];
      simpl; rewrite ?Hcur; repeat split; reflexivity.
  - destruct (Api.createProduct api data (store w)) as [[p | e] s'];
      simpl; rewrite ?Hcur; repeat split; reflexivity.
Qed.

(** X9. [confirmDelete] with no id to delete, or with the empty string,
    returns at once: nothing is called and the world is as it was, the
    dialog included. With any other id it never throws, closes the dialog,
    forgets the id and raises one toast, of success when the deletion
    resolved and of failure when it rejected. *)
Theorem confirmDelete_settles (api : Api.t) (w : World) :
  let after := page (snd (confirmDelete api w)) in
  fst (confirmDelete api w) = JS.Ok tt
  /\ match productToDelete (page w) with
     | None => snd (confirmDelete api w) = w
     | Some id =>
         if JS.truthy_string id then
           isDeleteDialogOpen after = false
           /\ productToDelete after = None
           /\ toasts after
              = toasts (page w)
                ++ [match fst (Api.deleteProduct api id (store w)) with
                    | JS.Ok _ => (success, "Product deleted successfully")
                    | JS.Throw _ => (error, "Failed to delete product")
                    end]
         else snd (confirmDelete api w) = w
     end.
Proof.
  run_handler.
  destruct (productToDelete (page w)) as [id|]; [| split; reflexivity].
  destruct (JS.truthy_string id); [| split; reflexivity].
  destruct (Api.deleteProduct api id (store w)) as [[r | e] s'];
    simpl; repeat split; reflexivity.
Qed.

(** X10. [loadData] never throws and always ends with [isLoading] false.
    When both calls resolved, [products] and [filteredProducts] hold the
    array [getProducts] resolved with, [categories] holds what
    [getCategories] resolved with, and no toast is raised. When one of them
    rejected, the page keeps the products and categories it had and raises
    the toast "Failed to load products". *)
Theorem loadData_settles (api : Api.t) (w : World) :
  let after := page (snd (loadData api w)) in
  fst (loadData api w) = JS.Ok tt
  /\ isLoading after = false
  /\ match Api.getProducts api (store w) with
     | (JS.Ok productsData, s1) =>
         match Api.getCategories api s1 with
         | (JS.Ok categoriesData, _) =>
             products after = productsData
             /\ filteredProducts after = productsData
             /\ categories after = categoriesData
             /\ toasts after = toasts (page w)
         | (JS.Throw _, _) =>
             products after = products (page w)
             /\ categories after = categories (page w)
             /\ toasts after = toasts (page w) ++ [(error, "Failed to load products")]
         end
     | (JS.Throw _, _) =>
         products after = products (page w)
         /\ categories after = categories (page w)
         /\ toasts after = toasts (page w) ++ [(error, "Failed to load products")]
     end.
Proof.
  run_handler. simpl.
  destruct (Api.getProducts api (store w)) as [[productsData | e] s1]; simpl.
  - destruct (Api.getCategories api s1) as [[categoriesData | e] s2];
      simpl; repeat split; reflexivity.
  - repeat split; reflexivity.
Qed.

(** [handleDeleteClick]. *)
Definition handleDeleteClick (productId : string) (p : Page) : Page :=
  setIsDeleteDialogOpen true (setProductToDelete (Some productId) p).

(** [handleEditProduct]. *)
Definition handleEditProduct (product : Product.t) (p : Page) : Page :=
  setIsFormOpen true (setCurrentProduct (Some product) p).

(** [handleAddProduct]. *)
Definition handleAddProduct (p : Page) : Page :=
  setIsFormOpen true (setCurrentProduct None p).

(** [handleFilterChange]. *)
Definition handleFilterChange (newFilters : FilterOptions.t) (p : Page) : Page :=
  setFilters newFilters p.

Definition click (f : Page -> Page) (w : World) : World :=
  mkWorld (store w) (f (page w)).

(** X11. The delete flow on the mock service. On a page that holds an
    array of its own equal to the service's array, with no id repeated:
    clicking delete on a product of the list and confirming removes that
    product, and nothing else, from the service and from the page alike,
    closes the dialog and reports success. *)
Theorem delete_flow (random : N) (now1 now2 now : string) (w : World)
    (before after : list Product.t) (p : Product.t) :
  products (page w) = Own (store w) ->
  store w = before ++ p :: after ->
  NoDup (List.map Product.id (store w)) ->
  JS.truthy_string (Product.id p) = true ->
  let api := mockApi random now1 now2 now in
  let w' := snd (confirmDelete api (click (handleDeleteClick (Product.id p)) w)) in
  store w' = before ++ after
  /\ shown w' = before ++ after
  /\ isDeleteDialogOpen (page w') = false
  /\ toasts (page w') = toasts (page w) ++ [(success, "Product deleted successfully")].
Proof.
  intros Hown Hstore Hnodup Htruthy api w'.
  rewrite Hstore in Hnodup.
  destruct (unique_id_split _ before after p Hnodup eq_refl) as [Hb Ha].
  assert (Hcall : Api.deleteProduct api (Product.id p) (store w)
                  = (JS.Ok true, before ++ after)).
  { rewrite Hstore. apply deleteProduct_present; [reflexivity | exact Hb]. }
  unfold w'. run_handler. unfold click, handleDeleteClick. simpl.
  rewrite Htruthy. simpl. simpl in Hcall. rewrite Hcall. simpl.
  unfold shown, read. simpl. rewrite Hown, Hstore.
  rewrite filter_drop_unique by (try reflexivity; assumption).
  repeat split; reflexivity.
Qed.

Lemma delete_flow_witness :
  let w := mkWorld ProductService.mockProducts
             (setProducts (Own ProductService.mockProducts) initialPage) in
  let w' := snd (confirmDelete demoApi (click (handleDeleteClick "1") w)) in
  List.map Product.id (store w') = ["2"; "3"; "4"; "5"; "6"; "7"; "8"]
  /\ shown w' = store w'.
Proof.
  intros w w'.
  destruct (delete_flow 7 "2024-01-01T00:00:00Z" "2024-01-01T00:00:00Z"
              "2024-01-01T00:00:01Z" w [] (List.tl ProductService.mockProducts)
              (ProductService.product "1" "Apple MacBook Pro"
                 "High-performance laptop for professionals" "Electronics" 1999 4.5
                 "2023-01-15T08:00:00Z")
              eq_refl eq_refl mock_ids_unique eq_refl)
    as (Hstore & Hshown & _).
  unfold w', demoApi. simpl Product.id in Hstore, Hshown.
  rewrite Hstore, Hshown. split; reflexivity.
Defined.

End PageBookkeeping.

(* ===================================================================== *)
(** * More about filtering, and the [ProductFilters] component *)
(* ===================================================================== *)

Module FiltersPanel.

Import Client.

(** A [Partial<FilterOptions>]: a key that is absent is [None]. *)
Record Partial : Type := mkPartial {
  category : option (option string);
  minPrice : option (option JS.number);
  maxPrice : option (option JS.number);
  minRating : option (option JS.number);
  search : option string
}.

Definition nothing : Partial := mkPartial None None None None None.

(** [{ ...filters, ...newFilters }]. *)
Definition merge (filters : FilterOptions.t) (newFilters : Partial)
    : FilterOptions.t :=
  {| FilterOptions.category :=
       default (FilterOptions.category filters) (category newFilters);
     FilterOptions.minPrice :=
       default (FilterOptions.minPrice filters) (minPrice newFilters);
     FilterOptions.maxPrice :=
       default (FilterOptions.maxPrice filters) (maxPrice newFilters);
     FilterOptions.minRating :=
       default (FilterOptions.minRating filters) (minRating newFilters);
     FilterOptions.search :=
       default (FilterOptions.search filters) (search newFilters) |}.

(** [bound || fallback] for a [number | null]. *)
Definition or_null (bound : option JS.number) (fallback : JS.number) : JS.number :=
  match bound with
  | Some n => JS.or n fallback
  | None => fallback
  end.

(** The state of the component. *)
Record Panel : Type := mkPanel {
  filters : FilterOptions.t;
  priceRange : list JS.number
}.

(** The two [useState] initialisers. *)
Definition mount (initialFilters : FilterOptions.t) : Panel :=
  {| filters := initialFilters;
     priceRange :=
       [or_null (FilterOptions.minPrice initialFilters) (JS.ofZ 0);
        or_null (FilterOptions.maxPrice initialFilters) (JS.ofZ 2000)] |}.

(** The component next to the page's filters, which [onFilterChange]
    (the page's [handleFilterChange]) sets. A handler is a closure of the
    render that created it: what it reads of the component's state is the
    state that render had, and what it sets is the state now. *)
Definition View : Type := (Panel * FilterOptions.t)%type.

(** [updateFilters] as the render whose state was [rendered] created it:
    it spreads that render's [filters]. *)
Definition updateFiltersOf (rendered : Panel) (newFilters : Partial) (v : View)
    : View :=
  let updatedFilters := merge (filters rendered) newFilters in
  (mkPanel updatedFilters (priceRange (fst v)), updatedFilters).

(** [updateFilters] of the latest render: the component has rendered since
    its state last changed. *)
Definition updateFilters (newFilters : Partial) (v : View) : View :=
  updateFiltersOf (fst v) newFilters v.

(** [handleSearchChange], on the value of the input. *)
Definition handleSearchChange (value : string) : View -> View :=
  updateFilters (mkPartial None None None None (Some value)).

(** [handleCategoryChange]. *)
Definition handleCategoryChange (value : string) : View -> View :=
  updateFilters
    (mkPartial (Some (if String.eqb value "all" then None else Some value))
       None None None None).

(** [handlePriceRangeChange]. *)
Definition handlePriceRangeChange (value : list JS.number) (v : View) : View :=
  (mkPanel (filters (fst v)) value, snd v).

(** [handlePriceRangeCommit] as the render whose state was [rendered]
    created it: it reads that render's [priceRange] and takes no argument,
    so the value the slider commits is not what it stores. Reading
    [priceRange] beyond its end gives [undefined], which is no
    [number | null]: there is no result then. *)
Definition handlePriceRangeCommit (rendered : Panel) (v : View) : option View :=
  match priceRange rendered !! 0%nat, priceRange rendered !! 1%nat with
  | Some lo, Some hi =>
      Some (updateFiltersOf rendered
              (mkPartial None (Some (Some lo)) (Some (Some hi)) None None) v)
  | _, _ => None
  end.

(** A step of the price slider that changes and commits in one event (as a
    key press does): [onValueChange] and then [onValueCommit], both handlers
    of the render the event found. *)
Definition handlePriceRangeStep (value : list JS.number) (v : View) : option View :=
  handlePriceRangeCommit (fst v) (handlePriceRangeChange value v).

(** [handleRatingChange], on the first value of the slider. *)
Definition handleRatingChange (value : JS.number) : View -> View :=
  updateFilters (mkPartial None None None (Some (Some value)) None).

Definition clearedFilters : FilterOptions.t :=
  FilterOptions.mk None None None None EmptyString.

(** [handleClearFilters]. *)
Definition handleClearFilters (v : View) : View :=
  (mkPanel clearedFilters [JS.ofZ 0; JS.ofZ 2000], clearedFilters).

End FiltersPanel.

Section FilterAlgebra.

Import Client.

Local Open Scope string_scope.
Local Open Scope list_scope.

Lemma elem_of_filter_bool {A} (g : A -> bool) (l : list A) (x : A) :
  x ∈ List.filter g l <-> x ∈ l /\ g x = true.
Proof. rewrite !list_elem_of_In. apply List.filter_In. Qed.

(** X12. The chain of filters of the effect keeps a product exactly when
    it passes the five tests together. So filtering a list built by
    appending filters both parts; filtering by one set of criteria and then
    by another gives the same list in either order; and filtering twice by
    the same criteria changes nothing more. *)
Theorem applyFilters_composes (f g : FilterOptions.t) (l1 l2 : list Product.t) :
  (forall x, x ∈ applyFilters f l1 <-> x ∈ l1 /\ passes f x = true)
  /\ applyFilters f (l1 ++ l2) = applyFilters f l1 ++ applyFilters f l2
  /\ applyFilters f (applyFilters g l1) = applyFilters g (applyFilters f l1)
  /\ applyFilters f (applyFilters f l1) = applyFilters f l1.
Proof.
  rewrite !applyFilters_passes. split; [| split; [| split]].
  - intros x. apply elem_of_filter_bool.
  - apply List.filter_app.
  - rewrite !filter_filter. apply List.filter_ext. intros x. apply andb_comm.
  - rewrite filter_filter. apply List.filter_ext. intros x.
    destruct (passes f x); reflexivity.
Qed.

(** X13. Filters with no category chosen (null or the empty string), no
    bound set and an empty search term keep every product, in order. Such
    are the filters the page starts with and the filters "Clear filters"
    sets: after [handleClearFilters] the effect leaves the whole list in
    [filteredProducts], and the price slider is back at 0 and 2000. *)
Theorem cleared_filters_show_everything (v : FiltersPanel.View) (w : World) :
  let cleared := FiltersPanel.handleClearFilters v in
  let w' := filterEffect (mkWorld (store w) (setFilters (snd cleared) (page w))) in
  (forall f l,
     JS.truthy_nullable (FilterOptions.category f) = false ->
     FilterOptions.minPrice f = None ->
     FilterOptions.maxPrice f = None ->
     FilterOptions.minRating f = None ->
     FilterOptions.search f = EmptyString ->
     applyFilters f l = l)
  /\ filters initialPage = snd cleared
  /\ FiltersPanel.filters (fst cleared) = snd cleared
  /\ FiltersPanel.priceRange (fst cleared) = [JS.ofZ 0; JS.ofZ 2000]
  /\ read (filteredProducts (page w')) w' = shown w.
Proof.
  cbv zeta. split; [| repeat split; reflexivity].
  intros f l Hcategory Hmin Hmax Hrating Hsearch.
  unfold applyFilters. rewrite Hcategory, Hmin, Hmax, Hrating, Hsearch.
  reflexivity.
Qed.

End FilterAlgebra.

Section PanelFacts.

Import Client.

Local Open Scope string_scope.
Local Open Scope list_scope.

(** What the user does with the panel. The component renders after every
    event, so the handlers of an event are those of the state the event
    finds; [Step] is the one event that runs two of them. *)
Inductive Event : Type :=
  | Search (value : string)
  | Category (value : string)
  | Drag (value : list JS.number)
  | Commit
  | Step (value : list JS.number)
  | Rating (value : JS.number)
  | Clear.

Definition handle (e : Event) (v : FiltersPanel.View) : option FiltersPanel.View :=
  match e with
  | Search value => Some (FiltersPanel.handleSearchChange value v)
  | Category value => Some (FiltersPanel.handleCategoryChange value v)
  | Drag value => Some (FiltersPanel.handlePriceRangeChange value v)
  | Commit => FiltersPanel.handlePriceRangeCommit (fst v) v
  | Step value => FiltersPanel.handlePriceRangeStep value v
  | Rating value => Some (FiltersPanel.handleRatingChange value v)
  | Clear => Some (FiltersPanel.handleClearFilters v)
  end.

Fixpoint handleAll (events : list Event) (v : FiltersPanel.View)
    : option FiltersPanel.View :=
  match events with
  | [] => Some v
  | e :: rest =>
      match handle e v with
      | Some v' => handleAll rest v'
      | None => None
      end
  end.

Lemma commit_agrees (rendered : FiltersPanel.Panel) (v v' : FiltersPanel.View) :
  FiltersPanel.handlePriceRangeCommit rendered v = Some v' ->
  FiltersPanel.filters (fst v') = snd v'.
Proof.
  unfold FiltersPanel.handlePriceRangeCommit. intros Hcommit.
  destruct (FiltersPanel.priceRange rendered !! 0%nat); [| discriminate].
  destruct (FiltersPanel.priceRange rendered !! 1%nat); [| discriminate].
  inversion Hcommit. reflexivity.
Qed.

Lemma handle_agrees (e : Event) (v v' : FiltersPanel.View) :
  FiltersPanel.filters (fst v) = snd v ->
  handle e v = Some v' ->
  FiltersPanel.filters (fst v') = snd v'.
Proof.
  intros Hv Hhandle. destruct e; simpl in Hhandle;
    try (inversion Hhandle; subst; simpl; first [reflexivity | exact Hv]);
    eapply commit_agrees; eassumption.
Qed.

(** X14. The panel is mounted with the page's filters, and from then on the
    filters the panel keeps are the filters the page filters by, whatever
    the user does with the search box, the category list, the two sliders
    and the clear button. *)
Theorem panel_and_page_agree (initialFilters : FilterOptions.t)
    (events : list Event) (v : FiltersPanel.View) :
  handleAll events (FiltersPanel.mount initialFilters, initialFilters) = Some v ->
  FiltersPanel.filters (fst v) = snd v.
Proof.
  assert (Hgen : forall v0, FiltersPanel.filters (fst v0) = snd v0 ->
            handleAll events v0 = Some v -> FiltersPanel.filters (fst v) = snd v).
  { induction events as [|e events IH]; intros v0 Hv0 Hrun; simpl in Hrun.
    - inversion Hrun; subst. exact Hv0.
    - destruct (handle e v0) as [v1|] eqn:Hstep; [| discriminate].
      apply (IH v1); [eapply handle_agrees; eassumption | exact Hrun]. }
  apply Hgen. reflexivity.
Qed.

Lemma panel_and_page_agree_witness :
  exists v,
    handleAll [Search "tv"; Drag [JS.ofZ 100; JS.ofZ 1500]; Commit; Category "all"]
      (FiltersPanel.mount FiltersPanel.clearedFilters, FiltersPanel.clearedFilters)
    = Some v
    /\ snd v = FilterOptions.mk None (Some (JS.ofZ 100)) (Some (JS.ofZ 1500)) None "tv"
    /\ FiltersPanel.filters (fst v) = snd v.
Proof.
  eexists. split; [reflexivity |]. split; [reflexivity |].
  apply (panel_and_page_agree FiltersPanel.clearedFilters
           [Search "tv"; Drag [JS.ofZ 100; JS.ofZ 1500]; Commit; Category "all"]).
  reflexivity.
Defined.

Definition inRange (lo hi : JS.number) (p : Product.t) : bool :=
  JS.ge (Product.price p) lo && JS.le (Product.price p) hi.

Definition withoutPrices (f : FilterOptions.t) : FilterOptions.t :=
  FiltersPanel.merge f
    (FiltersPanel.mkPartial None (Some None) (Some None) None None).

Definition withoutCategory (f : FilterOptions.t) : FilterOptions.t :=
  FiltersPanel.merge f
    (FiltersPanel.mkPartial (Some None) None None None None).

(** X15. [handlePriceRangeCommit] commits the range of the render that
    created it. Where that range is [lo] and [hi], with [hi] not zero and
    neither [NaN], the page then shows the products it would show without a
    price range whose price is from [lo] to [hi], both included. So a drag
    to a range, committed in a later event, narrows the view to that range;
    a step that changes and commits in one event narrows it to the range
    the slider showed before the step, and leaves the slider at the new
    one. *)
Theorem committed_range_bounds_prices (rendered : FiltersPanel.Panel)
    (v : FiltersPanel.View) (lo hi : JS.number) (l : list Product.t) :
  FiltersPanel.priceRange rendered !! 0%nat = Some lo ->
  FiltersPanel.priceRange rendered !! 1%nat = Some hi ->
  lo <> JS.NaN ->
  JS.truthy hi = true ->
  (exists v',
     FiltersPanel.handlePriceRangeCommit rendered v = Some v'
     /\ FiltersPanel.priceRange (fst v') = FiltersPanel.priceRange (fst v)
     /\ applyFilters (snd v') l
        = List.filter (inRange lo hi)
            (applyFilters (withoutPrices (FiltersPanel.filters rendered)) l))
  /\ (forall value,
        exists v',
          FiltersPanel.handlePriceRangeStep value (rendered, snd v) = Some v'
          /\ FiltersPanel.priceRange (fst v') = value
          /\ applyFilters (snd v') l
             = List.filter (inRange lo hi)
                 (applyFilters (withoutPrices (FiltersPanel.filters rendered)) l))
  /\ (forall value,
        value !! 0%nat = Some lo -> value !! 1%nat = Some hi ->
        exists v',
          handleAll [Drag value; Commit] v = Some v'
          /\ FiltersPanel.priceRange (fst v') = value
          /\ applyFilters (snd v') l
             = List.filter (inRange lo hi)
                 (applyFilters (withoutPrices (FiltersPanel.filters (fst v))) l)).
Proof.
  intros Hlo Hhi Hnan Htruthy.
  assert (Hview : forall filters0,
            applyFilters
              (FiltersPanel.merge filters0
                 (FiltersPanel.mkPartial None (Some (Some lo)) (Some (Some hi))
                    None None)) l
            = List.filter (inRange lo hi) (applyFilters (withoutPrices filters0) l)).
  { intros filters0. rewrite !applyFilters_passes, filter_filter.
    apply List.filter_ext. intros p.
    unfold passes, inRange, withoutPrices. simpl.
    rewrite (ge_or_zero _ lo Hnan), (le_or_infinity _ hi Htruthy).
    destruct (if JS.truthy_nullable _ then _ else true),
      (JS.ge (Product.price p) lo), (JS.le (Product.price p) hi),
      (match FilterOptions.minRating _ with Some _ => _ | None => true end),
      (if JS.truthy_string _ then _ else true); reflexivity. }
  split; [| split].
  - unfold FiltersPanel.handlePriceRangeCommit. rewrite Hlo, Hhi.
    eexists. split; [reflexivity |]. split; [reflexivity | apply Hview].
  - intros value.
    unfold FiltersPanel.handlePriceRangeStep, FiltersPanel.handlePriceRangeCommit.
    simpl. rewrite Hlo, Hhi.
    eexists. split; [reflexivity |]. split; [reflexivity | apply Hview].
  - intros value Hvlo Hvhi. simpl.
    unfold FiltersPanel.handlePriceRangeCommit. simpl. rewrite Hvlo, Hvhi.
    eexists. split; [reflexivity |]. split; [reflexivity | apply Hview].
Qed.

Lemma committed_range_bounds_prices_witness :
  let mounted := (FiltersPanel.mount FiltersPanel.clearedFilters,
                  FiltersPanel.clearedFilters) in
  (exists v',
     handleAll [Drag [JS.ofZ 100; JS.ofZ 400]; Commit] mounted = Some v'
     /\ List.map Product.id (applyFilters (snd v') ProductService.mockProducts)
        = ["2"; "4"; "6"; "7"])
  /\ (exists v',
        handleAll [Step [JS.ofZ 100; JS.ofZ 400]] mounted = Some v'
        /\ FiltersPanel.priceRange (fst v') = [JS.ofZ 100; JS.ofZ 400]
        /\ snd v'
           = FilterOptions.mk None (Some (JS.ofZ 0)) (Some (JS.ofZ 2000)) None
               EmptyString
        /\ applyFilters (snd v') ProductService.mockProducts
           = ProductService.mockProducts).
Proof.
  intros mounted. split.
  - destruct (committed_range_bounds_prices
                (fst (FiltersPanel.handlePriceRangeChange
                        [JS.ofZ 100; JS.ofZ 400] mounted))
                mounted (JS.ofZ 100) (JS.ofZ 400) ProductService.mockProducts
                eq_refl eq_refl)
      as (_ & _ & Hdrag); [discriminate | reflexivity |].
    destruct (Hdrag [JS.ofZ 100; JS.ofZ 400] eq_refl eq_refl)
      as (v' & Hrun & _ & Hview).
    exists v'. split; [exact Hrun |]. rewrite Hview. reflexivity.
  - destruct (committed_range_bounds_prices (fst mounted) mounted
                (JS.ofZ 0) (JS.ofZ 2000) ProductService.mockProducts
                eq_refl eq_refl)
      as (_ & Hstep & _); [discriminate | reflexivity |].
    destruct (Hstep [JS.ofZ 100; JS.ofZ 400]) as (v' & Hrun & Hrange & Hview).
    exists v'. simpl in Hrun. split; [exact Hrun |]. split; [exact Hrange |].
    split; [| rewrite Hview; reflexivity].
    unfold FiltersPanel.handlePriceRangeStep in Hrun. simpl in Hrun.
    inversion Hrun. reflexivity.
Defined.

(** X16. Choosing a category narrows the view to the products of that
    category: the page shows the products it would show with no category
    chosen whose category is the chosen one. Choosing "all" (also when a
    product's category is spelled that way) or the empty string chooses no
    category. *)
Theorem chosen_category_narrows (v : FiltersPanel.View) (value : string)
    (l : list Product.t) :
  let unfiltered := applyFilters (withoutCategory (FiltersPanel.filters (fst v))) l in
  applyFilters (snd (FiltersPanel.handleCategoryChange value v)) l
  = if String.eqb value "all" || negb (JS.truthy_string value) then unfiltered
    else List.filter (fun p => String.eqb (Product.category p) value) unfiltered.
Proof.
  cbv zeta. rewrite !applyFilters_passes.
  unfold FiltersPanel.handleCategoryChange, withoutCategory, passes. simpl.
  destruct (String.eqb value "all") eqn:Hall; simpl; [reflexivity |].
  destruct (JS.truthy_string value) eqn:Htruthy; simpl; [| reflexivity].
  rewrite filter_filter. apply List.filter_ext. intros p.
  destruct (String.eqb (Product.category p) value),
    (match FilterOptions.minPrice _ with Some _ => _ | None => true end),
    (match FilterOptions.maxPrice _ with Some _ => _ | None => true end),
    (match FilterOptions.minRating _ with Some _ => _ | None => true end),
    (if JS.truthy_string _ then _ else true); reflexivity.
Qed.

End PanelFacts.

(* ===================================================================== *)
(** * The rating stars of [ProductGrid] and [ProductTable] *)
(* ===================================================================== *)

From Stdlib Require Import Qround.

Module Rendering.

(** [Math.floor]. *)
Definition floor (n : JS.number) : JS.number :=
  match n with
  | JS.Fin q => JS.ofZ (Qfloor q)
  | other => other
  end.

(** [a < b] on numbers: false as soon as one side is [NaN]. *)
Definition lt (a b : JS.number) : bool :=
  match a, b with
  | JS.NaN, _ | _, JS.NaN => false
  | JS.Infinity, _ => false
  | _, JS.NegInfinity => false
  | JS.Fin x, JS.Fin y => negb (Qle_bool y x)
  | _, _ => true
  end.

(** [[...Array(5)].map((_, i) => i < Math.floor(product.rating) ...)]:
    the five stars of a card or a row, [true] for a yellow one. *)
Definition stars (rating : JS.number) : list bool :=
  List.map (fun i => lt (JS.ofZ (Z.of_nat i)) (floor rating)) (seq 0 5).

End Rendering.

Section Stars.

Lemma lt_ofZ (a b : Z) : Rendering.lt (JS.ofZ a) (JS.ofZ b) = (a <? b).
Proof.
  unfold Rendering.lt, JS.ofZ, Qle_bool. simpl. rewrite !Z.mul_1_r.
  rewrite Z.ltb_antisym. reflexivity.
Qed.

(** X17. A product always gets five stars. For a finite rating the yellow
    ones come first and there are as many as the integer part of the rating
    (none below 1, five from 5 on): the rating is never rounded up. A [NaN]
    rating gives no yellow star. *)
Theorem stars_count_the_integer_part (q : Q) :
  let filled := Z.to_nat (Z.min 5 (Z.max 0 (Qfloor q))) in
  Rendering.stars (JS.Fin q) = replicate filled true ++ replicate (5 - filled) false
  /\ (forall rating, length (Rendering.stars rating) = 5%nat)
  /\ Rendering.stars JS.NaN = replicate 5 false.
Proof.
  cbv zeta. split; [| split; [intros rating; reflexivity | reflexivity]].
  unfold Rendering.stars, Rendering.floor. cbn [List.map seq]. rewrite !lt_ofZ.
  generalize (Qfloor q). intros z. cbn [Z.of_nat Pos.of_succ_nat Pos.succ].
  destruct (Z_lt_le_dec z 1) as [H1 | H1];
    [replace (Z.to_nat (Z.min 5 (Z.max 0 z))) with 0%nat by lia |
  destruct (Z_lt_le_dec z 2) as [H2 | H2];
    [replace (Z.to_nat (Z.min 5 (Z.max 0 z))) with 1%nat by lia |
  destruct (Z_lt_le_dec z 3) as [H3 | H3];
    [replace (Z.to_nat (Z.min 5 (Z.max 0 z))) with 2%nat by lia |
  destruct (Z_lt_le_dec z 4) as [H4 | H4];
    [replace (Z.to_nat (Z.min 5 (Z.max 0 z))) with 3%nat by lia |
  destruct (Z_lt_le_dec z 5) as [H5 | H5];
    [replace (Z.to_nat (Z.min 5 (Z.max 0 z))) with 4%nat by lia |
     replace (Z.to_nat (Z.min 5 (Z.max 0 z))) with 5%nat by lia]]]]];
  simpl;
  repeat match goal with
         | |- context [Z.ltb ?a z] =>
             let Hc := fresh in destruct (Z.ltb_spec a z) as [Hc | Hc]; try lia
         end;
  reflexivity.
Qed.

Example stars_of_4_8 :
  Rendering.stars (JS.Fin 4.8) = [true; true; true; true; false].
Proof. reflexivity. Qed.

End Stars.

(* ===================================================================== *)
(** * The session across reloads: the mount effect and [logout] *)
(* ===================================================================== *)

Module Session.

Import Client.

Local Open Scope string_scope.

Definition setIsLoading (v : bool) (s : Auth.State) : Auth.State :=
  Auth.mk (Auth.user s) (Auth.token s) v (Auth.localStorage s) (Auth.toasts s).

(** The provider as a page load mounts it, over what the browser stored. *)
Definition mounted (localStorage : gmap string string) : Auth.State :=
  Auth.mk None None true localStorage [].

Section Mount.

(** [JSON.parse] on the stored user: [None] when it throws. *)
Variable parse : string -> option User.t.

(** The effect [AuthProvider] runs when it mounts. [JSON.parse] is not
    guarded: when it throws, the effect stops there. *)
Definition restoreSession : JS.M Auth.State string unit :=
  fun s =>
    let storedToken := Auth.localStorage s !! "jwt_token" in
    let storedUser := Auth.localStorage s !! "user" in
    match storedToken, storedUser with
    | Some token, Some user =>
        if JS.truthy_string token && JS.truthy_string user then
          let s := Auth.setToken (Some token) s in
          match parse user with
          | Some parsed => (JS.Ok tt, setIsLoading false (Auth.setUser (Some parsed) s))
          | None => (JS.Throw "SyntaxError", s)
          end
        else (JS.Ok tt, setIsLoading false s)
    | _, _ => (JS.Ok tt, setIsLoading false s)
    end.

End Mount.

End Session.

Section SessionFacts.

Import Client.

Local Open Scope string_scope.
Local Open Scope list_scope.

Variable stringify : User.t -> string.
Variable parse : string -> option User.t.
Variable accepts : gmap string string -> string -> string -> bool.

(** X18. [logout] leaves no user and no token in the provider and neither
    of the two keys in [localStorage]; every other key of the storage keeps
    its value. After it, a reload finds nobody signed in. When the storage
    held neither key before [login], [login] followed by [logout] gives the
    storage back as it was, whether the storage took both writes of [login],
    one, or none. *)
Theorem logout_clears_session (s : Auth.State) (random email password : string) :
  let out := Auth.logout s in
  Auth.user out = None
  /\ Auth.token out = None
  /\ Auth.localStorage out !! "jwt_token" = None
  /\ Auth.localStorage out !! "user" = None
  /\ (forall key, key <> "jwt_token" -> key <> "user" ->
        Auth.localStorage out !! key = Auth.localStorage s !! key)
  /\ Session.restoreSession parse (Session.mounted (Auth.localStorage out))
     = (JS.Ok tt, Session.setIsLoading false (Session.mounted (Auth.localStorage out)))
  /\ (Auth.localStorage s !! "jwt_token" = None ->
      Auth.localStorage s !! "user" = None ->
      Auth.localStorage
        (Auth.logout (snd (Auth.login stringify accepts random email password s)))
      = Auth.localStorage s).
Proof.
  cbv zeta.
  assert (Hstorage : forall s0,
            Auth.localStorage (Auth.logout s0)
            = delete "user" (delete "jwt_token" (Auth.localStorage s0)))
    by reflexivity.
  assert (Htoken : Auth.localStorage (Auth.logout s) !! "jwt_token" = None).
  { rewrite Hstorage, lookup_delete_ne by discriminate. apply lookup_delete_eq. }
  assert (Huser : Auth.localStorage (Auth.logout s) !! "user" = None).
  { rewrite Hstorage. apply lookup_delete_eq. }
  split; [reflexivity |]. split; [reflexivity |].
  split; [exact Htoken |]. split; [exact Huser |]. split; [| split].
  - intros key H1 H2. rewrite Hstorage, !lookup_delete_ne by congruence.
    reflexivity.
  - clear Huser. revert Htoken.
    generalize (Auth.localStorage (Auth.logout s)). intros m Htoken.
    unfold Session.restoreSession. simpl. rewrite Htoken. reflexivity.
  - intros Hnotoken Hnouser. rewrite Hstorage.
    destruct (sign_in_cases stringify accepts random email password s
                (Auth.login stringify accepts) (or_introl eq_refl))
      as [(_ & _ & ->) | (_ & _ & _ & _ & [-> | ->])].
    + rewrite (delete_insert_ne _ "jwt_token" "user") by discriminate.
      rewrite delete_insert_eq. rewrite delete_insert_eq.
      rewrite (delete_id _ "jwt_token") by exact Hnotoken.
      apply delete_id, Hnouser.
    + rewrite (delete_id _ "jwt_token") by exact Hnotoken.
      apply delete_id, Hnouser.
    + rewrite delete_insert_eq.
      rewrite (delete_id _ "jwt_token") by exact Hnotoken.
      apply delete_id, Hnouser.
Qed.

(** X19. A reload after a [login] or a [signup] that returned [true]
    finds the session again: the mount effect, run over the storage they
    left, restores the same token and the same user and ends the loading
    state, provided [JSON.parse] gives back the user [JSON.stringify] was
    given and the text is not empty. *)
Theorem session_survives_reload (s : Auth.State) (random email password : string) :
  let mockUser := User.mk "1" email in
  parse (stringify mockUser) = Some mockUser ->
  JS.truthy_string (stringify mockUser) = true ->
  forall run,
    run = Auth.login stringify accepts \/ run = Auth.signup stringify accepts ->
    fst (run random email password s) = JS.Ok true ->
    let signedInState := snd (run random email password s) in
    exists reloaded,
      Session.restoreSession parse (Session.mounted (Auth.localStorage signedInState))
      = (JS.Ok tt, reloaded)
      /\ Auth.user reloaded = Auth.user signedInState
      /\ Auth.token reloaded = Auth.token signedInState
      /\ Auth.user reloaded = Some mockUser
      /\ Auth.isLoading reloaded = false.
Proof.
  intros mockUser Hparse Htruthy run Hwhich Htrue signedInState.
  assert (Hstores : storesSession stringify accepts random email s).
  { destruct (sign_in_cases stringify accepts random email password s run Hwhich)
      as [(Hstores & _) | (_ & Hfalse & _)]; [exact Hstores |].
    rewrite Hfalse in Htrue. discriminate. }
  assert (Hstorage : Auth.localStorage signedInState
                     = <["user" := stringify mockUser]>
                         (<["jwt_token" := "mock_jwt_token_" +:+ random]>
                            (Auth.localStorage s))
                     /\ Auth.user signedInState = Some mockUser
                     /\ Auth.token signedInState = Some ("mock_jwt_token_" +:+ random)).
  { unfold signedInState. destruct Hwhich as [-> | ->];
      [rewrite (login_runs _ _ _ _ password s Hstores)
      | rewrite (signup_runs _ _ _ _ password s Hstores)];
      repeat split; reflexivity. }
  destruct Hstorage as (Hstorage & Huser & Htoken).
  unfold Session.restoreSession. simpl. rewrite Hstorage.
  rewrite lookup_insert_ne by discriminate. rewrite !lookup_insert_eq.
  simpl. rewrite Htruthy, Hparse. eexists. split; [reflexivity |].
  simpl. rewrite Huser, Htoken. repeat split; reflexivity.
Qed.

(** X20. The edges of the mount effect. With the token or the user
    missing from the storage, or stored as the empty string, nobody is
    signed in and loading ends. With both stored and a user text
    [JSON.parse] throws on, the effect throws after it set the token: no
    user is set and the loading state does not end. *)
Theorem restoreSession_edges (storage : gmap string string) :
  let s := Session.mounted storage in
  ((storage !! "jwt_token" = None \/ storage !! "jwt_token" = Some EmptyString
    \/ storage !! "user" = None \/ storage !! "user" = Some EmptyString) ->
   Session.restoreSession parse s = (JS.Ok tt, Session.setIsLoading false s))
  /\ (forall token user,
        storage !! "jwt_token" = Some token -> storage !! "user" = Some user ->
        JS.truthy_string token = true -> JS.truthy_string user = true ->
        parse user = None ->
        exists s',
          Session.restoreSession parse s = (JS.Throw "SyntaxError", s')
          /\ Auth.token s' = Some token
          /\ Auth.user s' = None
          /\ Auth.isLoading s' = true).
Proof.
  cbv zeta. unfold Session.restoreSession. simpl. split.
  - intros [Hmissing | [Hempty | [Hmissing | Hempty]]].
    + rewrite Hmissing. reflexivity.
    + rewrite Hempty. destruct (storage !! "user"); reflexivity.
    + rewrite Hmissing. destruct (storage !! "jwt_token"); reflexivity.
    + rewrite Hempty. destruct (storage !! "jwt_token") as [token|]; [| reflexivity].
      rewrite andb_false_r. reflexivity.
  - intros token user Htoken Huser Ht Hu Hparse.
    rewrite Htoken, Huser, Ht, Hu, Hparse. simpl.
    eexists. split; [reflexivity |]. repeat split; reflexivity.
Qed.

End SessionFacts.

Section SessionWitness.

Import Client.

Local Open Scope string_scope.

Definition ann : User.t := User.mk "1" "ann@example.com".

Definition annText : string := "{id:1,email:ann@example.com}".

Lemma session_survives_reload_witness :
  let stringify (u : User.t) := annText in
  let parse (text : string) := if String.eqb text annText then Some ann else None in
  let signedIn :=
    snd (Auth.login stringify roomy "k3j9x" "ann@example.com" "secret"
           (Session.mounted ∅)) in
  exists reloaded,
    Session.restoreSession parse (Session.mounted (Auth.localStorage signedIn))
    = (JS.Ok tt, reloaded)
    /\ Auth.user reloaded = Some ann
    /\ Auth.token reloaded = Some "mock_jwt_token_k3j9x".
Proof.
  intros stringify parse signedIn.
  destruct (session_survives_reload stringify parse roomy (Session.mounted ∅)
              "k3j9x" "ann@example.com" "secret" eq_refl eq_refl
              (Auth.login stringify roomy) (or_introl eq_refl) eq_refl)
    as (reloaded & Hrun & _ & Htoken & Huser & _).
  exists reloaded. split; [exact Hrun |]. split; [exact Huser |].
  rewrite Htoken. reflexivity.
Defined.

End SessionWitness.

(* ===================================================================== *)
(** * More about the routes *)
(* ===================================================================== *)

Section RouteAnswers.

Import Server.

Local Open Scope string_scope.
Local Open Scope list_scope.

Context `{Schema}.

Ltac run_route :=
  over_mongoose;
  unfold JS.try_catch, JS.bind,
    find, findById, save, findByIdAndUpdate, deleteOne, Date_now, JS.modify,
    catchObjectId, serverError, JS.ret;
  cbv beta.

(** The statuses a route answers with. *)
Definition statuses (r : Route) : list Z :=
  match r with
  | GetAll | GetMine => [200; 500]
  | GetById => [200; 404; 500]
  | Post => [201; 500]
  | Put | Delete => [200; 403; 404; 500]
  end.

(** A model whose database cannot be reached: every call throws. *)
Definition unreachable : ProductModel.t :=
  let error := mkError "MongoNetworkError" None in
  ProductModel.mk (fun _ s => (JS.Throw error, s)) (fun _ s => (JS.Throw error, s))
    (fun _ _ s => (JS.Throw error, s)) (fun _ _ _ s => (JS.Throw error, s))
    (fun _ s => (JS.Throw error, s)).

(** X21. No exception leaves a route, whatever the calls on the model
    resolve with or throw, the request and the collection: every handler
    returns a response, with one of the statuses of its route. A listing
    whose query throws answers 500 with the message 'Server error', and one
    whose query resolves answers 200 with the products of the query. The
    routes of this server are the routes over its own model. *)
Theorem routes_always_answer (model : ProductModel.t) (r : Route)
    (req : Request) (s : State) :
  (exists response,
     fst (handlerOver model r req s) = JS.Ok response
     /\ status response ∈ statuses r)
  /\ (forall filter listing,
        (filter = (fun _ => true) /\ listing = Router.getAll model)
        \/ (filter = (fun p => String.eqb (Product.createdBy p) (user_id req))
            /\ listing = Router.getMine model) ->
        match ProductModel.find model filter s with
        | (JS.Ok products, s') =>
            listing req s = (JS.Ok (mkResponse 200 (Products products)), s')
        | (JS.Throw error, s') =>
            listing req s = (JS.Ok (mkResponse 500 (Message "Server error")), s')
        end)
  /\ handlerOver mongoose r = handler r.
Proof.
  split; [| split].
  - destruct r; simpl;
      unfold Router.getAll, Router.getById, Router.post, Router.put,
        Router.delete, Router.getMine, JS.try_catch, JS.bind, catchObjectId,
        serverError, Date_now, JS.ret;
      cbv beta.
    + destruct (ProductModel.find model _ s) as [[products | error] s'];
        (eexists; split; [reflexivity | set_solver]).
    + destruct (ProductModel.findById model _ s) as [[[product |] | error] s'];
        try destruct (Client.strict_eq _ _);
        (eexists; split; [reflexivity | set_solver]).
    + destruct (ProductModel.save model _ _ s) as [[product | error] s'];
        (eexists; split; [reflexivity | set_solver]).
    + destruct (ProductModel.findById model _ s) as [[[product |] | error] s'];
        try destruct (negb _); cbv beta iota;
        try destruct (ProductModel.findByIdAndUpdate model _ _ _ s')
          as [[updatedProduct | error] s''];
        try destruct (Client.strict_eq _ _);
        (eexists; split; [reflexivity | set_solver]).
    + destruct (ProductModel.findById model _ s) as [[[product |] | error] s'];
        try destruct (negb _); cbv beta iota;
        try destruct (ProductModel.deleteOne model _ s') as [[[] | error] s''];
        try destruct (Client.strict_eq _ _);
        (eexists; split; [reflexivity | set_solver]).
    + destruct (ProductModel.find model _ s) as [[products | error] s'];
        (eexists; split; [reflexivity | set_solver]).
  - intros filter listing [[-> ->] | [-> ->]];
      unfold Router.getAll, Router.getMine, JS.try_catch, JS.bind; cbv beta;
      destruct (ProductModel.find model _ s) as [[products | error] s'];
      reflexivity.
  - destruct r; reflexivity.
Qed.

(** With the database out of reach every route answers 500, and the
    server stays as it was. *)
Lemma unreachable_database_answers_500 (r : Route) (req : Request) (s : State) :
  handlerOver unreachable r req s
  = (JS.Ok (mkResponse 500 (Message "Server error")), s).
Proof. destruct r; reflexivity. Qed.

(** X22. The three reading routes leave the server as it was, and reading
    is open to every caller: [getById] on the id of a stored product
    answers 200 with that product whoever asks, its owner or not. *)
Theorem reads_change_nothing (req : Request) (s : State) :
  snd (getAll req s) = s
  /\ snd (getById req s) = s
  /\ snd (getMine req s) = s
  /\ (forall oid P,
        castObjectId (params_id req) = Some oid ->
        List.find (has_id oid) (collection s) = Some P ->
        getById req s = (JS.Ok (mkResponse 200 (OneProduct P)), s)).
Proof.
  run_route. repeat split.
  - destruct (castObjectId (params_id req)) as [oid|]; simpl; [| reflexivity].
    destruct (List.find (has_id oid) (collection s)); reflexivity.
  - intros oid P Hcast Hfind. rewrite Hcast. cbv iota beta. rewrite Hfind.
    reflexivity.
Qed.

(** X23. [post] with a body the schema's validators refuse answers 500
    "Server error" and stores nothing. With a body they accept it answers
    201 and the collection is the old one followed by the new document, so
    one document longer. *)
Theorem post_outcomes (req : Request) (s : State) :
  (validate (body req) = false ->
   post req s = (JS.Ok (mkResponse 500 (Message "Server error")), s))
  /\ (validate (body req) = true ->
      exists P,
        post req s
        = (JS.Ok (mkResponse 201
                    (MessageProduct "Product created successfully" (Some P))),
           mkState (collection s ++ [P]) (N.succ (nextId s)) (clock s))
        /\ length (collection s ++ [P]) = S (length (collection s))).
Proof.
  run_route. split; intros Hvalid; rewrite Hvalid; simpl.
  - reflexivity.
  - eexists. split; [reflexivity |]. rewrite length_app. simpl. lia.
Qed.

(** X24. After an update by its owner, fetching the product answers 200
    with the document the update answered with. *)
Theorem put_then_getById (req : Request) (s : State) (oid : ObjectId)
    (P : Product.t) :
  castObjectId (params_id req) = Some oid ->
  List.find (has_id oid) (collection s) = Some P ->
  user_id req = Product.createdBy P ->
  exists P' s',
    put req s
    = (JS.Ok (mkResponse 200
                (MessageProduct "Product updated successfully" (Some P'))), s')
    /\ forall req', params_id req' = params_id req ->
         getById req' s' = (JS.Ok (mkResponse 200 (OneProduct P')), s').
Proof.
  intros Hcast Hfind Howner.
  rewrite (put_by_owner s req oid P Hcast Hfind Howner).
  eexists. eexists. split; [reflexivity |].
  intros req' Hsame. run_route. rewrite Hsame, Hcast. cbv iota beta.
  cbn [collection].
  rewrite (find_updateOne oid _ (applyUpdate_keeps_id _ _)), Hfind. reflexivity.
Qed.

End RouteAnswers.

Section RouteFrames.

Import Server.

Local Open Scope string_scope.
Local Open Scope list_scope.

Context `{Schema}.

Ltac run_route :=
  over_mongoose;
  unfold JS.try_catch, JS.bind,
    find, findById, save, findByIdAndUpdate, deleteOne, Date_now, JS.modify,
    catchObjectId, serverError, JS.ret;
  cbv beta.

Lemma find_own_id (docs : list Product.t) (P : Product.t) :
  NoDup (List.map Product._id docs) -> P ∈ docs ->
  List.find (has_id (Product._id P)) docs = Some P.
Proof.
  induction docs as [|Q docs IH]; simpl; intros Hnodup Hin.
  - apply elem_of_nil in Hin. destruct Hin.
  - apply NoDup_cons in Hnodup as [Hnotin Hnodup].
    apply elem_of_cons in Hin as [<- | Hin].
    + unfold has_id. rewrite N.eqb_refl. reflexivity.
    + replace (has_id (Product._id P) Q) with false; [apply IH; assumption |].
      symmetry. apply not_true_iff_false. rewrite has_id_eq. intros Heq.
      apply Hnotin. rewrite Heq. apply list_elem_of_In, in_map, list_elem_of_In, Hin.
Qed.

(** X25. On a server that grew from an empty collection, after a deletion
    by its owner fetching the product answers 404 "Product not found". *)
Theorem delete_then_getById (s : State) (req : Request) (oid : ObjectId)
    (P : Product.t) :
  reachable s ->
  castObjectId (params_id req) = Some oid ->
  List.find (has_id oid) (collection s) = Some P ->
  user_id req = Product.createdBy P ->
  exists s',
    delete req s
    = (JS.Ok (mkResponse 200 (Message "Product deleted successfully")), s')
    /\ forall req', params_id req' = params_id req ->
         getById req' s' = (JS.Ok (mkResponse 404 (Message "Product not found")), s').
Proof.
  intros Hreach Hcast Hfind Howner.
  destruct (reachable_consistent s Hreach) as (_ & Hnodup & _).
  rewrite (delete_by_owner s req oid P Hcast Hfind Howner).
  eexists. split; [reflexivity |].
  intros req' Hsame. run_route. rewrite Hsame, Hcast. cbv iota beta.
  cbn [collection]. rewrite find_removeOne by exact Hnodup. reflexivity.
Qed.

(** X26. On a server that grew from an empty collection, a request leaves
    every document it does not name as it was: after any route, a document
    found under an id other than the id of the request is found unchanged;
    for the routes other than [put] and [delete] this holds of every
    document. *)
Theorem other_documents_untouched (r : Route) (req : Request) (s : State)
    (other : ObjectId) (Q : Product.t) :
  reachable s ->
  List.find (has_id other) (collection s) = Some Q ->
  (r = Put \/ r = Delete -> castObjectId (params_id req) <> Some other) ->
  List.find (has_id other) (collection (snd (handler r req s))) = Some Q.
Proof.
  intros Hreach Hfind Hother.
  destruct (reachable_consistent s Hreach) as (Hids & _ & _).
  destruct r; simpl; run_route.
  - exact Hfind.
  - destruct (castObjectId (params_id req)) as [oid|]; simpl; [| exact Hfind].
    destruct (List.find (has_id oid) (collection s)); exact Hfind.
  - destruct (validate (body req)); simpl; [| exact Hfind].
    rewrite find_app_other; [exact Hfind |]. simpl.
    apply find_has_id in Hfind as [Hin <-]. rewrite Forall_forall in Hids.
    specialize (Hids Q Hin). lia.
  - destruct (castObjectId (params_id req)) as [oid|] eqn:Hcast; simpl;
      [| exact Hfind].
    destruct (List.find (has_id oid) (collection s)) as [p|]; [| exact Hfind].
    destruct (negb _); simpl; [exact Hfind |].
    rewrite (find_updateOne_other oid _ (applyUpdate_keeps_id _ _)); [exact Hfind |].
    intros ->. apply Hother; [left; reflexivity | reflexivity].
  - destruct (castObjectId (params_id req)) as [oid|] eqn:Hcast; simpl;
      [| exact Hfind].
    destruct (List.find (has_id oid) (collection s)) as [p|] eqn:Hp; [| exact Hfind].
    destruct (negb _); simpl; [exact Hfind |].
    apply find_has_id in Hp as [_ Hp]. rewrite Hp.
    rewrite find_removeOne_other; [exact Hfind |].
    intros ->. apply Hother; [right; reflexivity | reflexivity].
  - exact Hfind.
Qed.

(** X27. What a server that grew from an empty collection keeps: no two
    documents share an [_id]; every document can be fetched by the id it is
    written with, and the answer is that document; and for every document
    [createdAt] is not after [updatedAt], which is not after the clock. *)
Theorem stored_documents_are_fetchable (s : State) :
  reachable s ->
  (forall (i j : nat) P Q,
     collection s !! i = Some P -> collection s !! j = Some Q ->
     Product._id P = Product._id Q -> i = j)
  /\ (forall P req,
        P ∈ collection s ->
        params_id req = toString (Product._id P) ->
        getById req s = (JS.Ok (mkResponse 200 (OneProduct P)), s))
  /\ (forall P,
        P ∈ collection s ->
        Product.createdAt P <= Product.updatedAt P <= clock s).
Proof.
  intros Hreach.
  destruct (reachable_consistent s Hreach) as (_ & Hnodup & Htimes).
  split; [| split].
  - intros i j P Q Hi Hj Heq.
    apply (NoDup_lookup (Product._id <$> collection s) i j (Product._id P)).
    + exact Hnodup.
    + rewrite list_lookup_fmap, Hi. reflexivity.
    + rewrite list_lookup_fmap, Hj, Heq. reflexivity.
  - intros P req Hin Hid. run_route. rewrite Hid, cast_toString. cbv iota beta.
    rewrite find_own_id by assumption. reflexivity.
  - intros P Hin. rewrite Forall_forall in Htimes. apply Htimes, Hin.
Qed.

End RouteFrames.

Section RouteFrameWitnesses.

Import Server.

Local Open Scope string_scope.
Local Open Scope list_scope.

Lemma put_then_getById_witness :
  exists P' s',
    put (mkRequest "a" chair "alice") demo
    = (JS.Ok (mkResponse 200
                (MessageProduct "Product updated successfully" (Some P'))), s')
    /\ getById (mkRequest "a" lamp "bob") s'
       = (JS.Ok (mkResponse 200 (OneProduct P')), s').
Proof.
  destruct (@put_then_getById hexSchema (mkRequest "a" chair "alice") demo 10%N aliceLamp
              eq_refl eq_refl eq_refl) as (P' & s' & Hput & Hget).
  exists P', s'. split; [exact Hput | apply Hget; reflexivity].
Defined.

Lemma delete_then_getById_witness :
  exists s',
    delete (mkRequest "b" chair "bob") demo
    = (JS.Ok (mkResponse 200 (Message "Product deleted successfully")), s')
    /\ getById (mkRequest "b" lamp "alice") s'
       = (JS.Ok (mkResponse 404 (Message "Product not found")), s').
Proof.
  destruct (@delete_then_getById hexSchema demo (mkRequest "b" chair "bob") 11%N bobChair
              demo_reachable eq_refl eq_refl eq_refl) as (s' & Hdelete & Hget).
  exists s'. split; [exact Hdelete | apply Hget; reflexivity].
Defined.

Lemma other_documents_untouched_witness :
  List.find (has_id 11%N)
    (collection (snd (handler Delete (mkRequest "a" lamp "alice") demo)))
  = Some bobChair
  /\ List.find (has_id 11%N)
       (collection (snd (handler Post (mkRequest "b" lamp "carol") demo)))
     = Some bobChair.
Proof.
  split.
  - apply (other_documents_untouched Delete (mkRequest "a" lamp "alice") demo
             11%N bobChair demo_reachable eq_refl).
    intros _. discriminate.
  - apply (other_documents_untouched Post (mkRequest "b" lamp "carol") demo
             11%N bobChair demo_reachable eq_refl).
    intros [Hput | Hdelete]; discriminate.
Defined.

Lemma stored_documents_are_fetchable_witness :
  getById (mkRequest "b" lamp "alice") demo
  = (JS.Ok (mkResponse 200 (OneProduct bobChair)), demo)
  /\ Product.createdAt bobChair <= Product.updatedAt bobChair <= clock demo.
Proof.
  destruct (stored_documents_are_fetchable demo demo_reachable)
    as (_ & Hfetch & Htimes).
  assert (Hin : bobChair ∈ collection demo).
  { rewrite demo_collection. apply list_elem_of_further, list_elem_of_here. }
  split; [apply Hfetch; [exact Hin | reflexivity] | apply Htimes, Hin].
Defined.

End RouteFrameWitnesses.

(* ===================================================================== *)
(** * The product form *)
(* ===================================================================== *)

Module ProductForm.

Import Client.

(** The [defaultValues] the form is opened with: the fields of the product
    being edited, or the blank form. *)
Definition defaultValues (product : option Product.t) : ProductFormData.t :=
  match product with
  | Some product =>
      {| ProductFormData.name := Product.name product;
         ProductFormData.description := Product.description product;
         ProductFormData.category := Product.category product;
         ProductFormData.price := Product.price product;
         ProductFormData.rating := Product.rating product |}
  | None =>
      {| ProductFormData.name := EmptyString;
         ProductFormData.description := EmptyString;
         ProductFormData.category := EmptyString;
         ProductFormData.price := JS.ofZ 0;
         ProductFormData.rating := JS.ofZ 3 |}
  end.

(** [product?.rating || 3]: where the rating slider stands when the form
    opens. *)
Definition sliderDefault (product : option Product.t) : JS.number :=
  match product with
  | Some product => JS.or (Product.rating product) (JS.ofZ 3)
  | None => JS.ofZ 3
  end.

End ProductForm.

Section ProductFormFacts.

Import Client.

Local Open Scope string_scope.
Local Open Scope list_scope.

(** X28. Updating a product with the values its edit form opens with
    changes nothing of the product but [updatedAt]: the call resolves with
    the product at the new time, in its place in the array. The slider,
    though, opens on the product's rating only when that rating is truthy:
    for a rating of zero it stands at 3 while the form holds 0. *)
Theorem untouched_edit_keeps_the_product (now : string)
    (before after : list Product.t) (p : Product.t) :
  Forall (fun q => Product.id q <> Product.id p) before ->
  let touched :=
    Product.mk (Product.id p) (Product.name p) (Product.description p)
      (Product.category p) (Product.price p) (Product.rating p)
      (Product.createdAt p) now in
  ProductService.updateProduct now (Product.id p)
    (ProductForm.defaultValues (Some p)) (before ++ p :: after)
  = (JS.Ok touched, before ++ touched :: after)
  /\ (JS.truthy (Product.rating p) = true ->
      ProductForm.sliderDefault (Some p)
      = ProductFormData.rating (ProductForm.defaultValues (Some p)))
  /\ (JS.truthy (Product.rating p) = false ->
      ProductForm.sliderDefault (Some p) = JS.ofZ 3).
Proof.
  intros Hb touched. split; [| split].
  - rewrite (updateProduct_present now (Product.id p) _ before after p eq_refl Hb).
    reflexivity.
  - intros Htruthy. unfold ProductForm.sliderDefault, JS.or. rewrite Htruthy.
    reflexivity.
  - intros Hfalsy. unfold ProductForm.sliderDefault, JS.or. rewrite Hfalsy.
    reflexivity.
Qed.

Lemma untouched_edit_keeps_the_product_witness :
  let unrated :=
    Product.mk "9" "Desk lamp" "Warm light" "Furniture" (JS.ofZ 12) (JS.ofZ 0)
      "2023-01-15T08:00:00Z" "2023-01-15T08:00:00Z" in
  fst (ProductService.updateProduct "2024-05-01T00:00:00Z" "9"
         (ProductForm.defaultValues (Some unrated))
         (ProductService.mockProducts ++ [unrated]))
  = JS.Ok (Product.mk "9" "Desk lamp" "Warm light" "Furniture" (JS.ofZ 12) (JS.ofZ 0)
             "2023-01-15T08:00:00Z" "2024-05-01T00:00:00Z")
  /\ ProductForm.sliderDefault (Some unrated) = JS.ofZ 3.
Proof.
  intros unrated.
  assert (Hfresh : Forall (fun q => Product.id q <> Product.id unrated)
                     ProductService.mockProducts).
  { unfold ProductService.mockProducts. repeat constructor; discriminate. }
  destruct (untouched_edit_keeps_the_product "2024-05-01T00:00:00Z"
              ProductService.mockProducts [] unrated Hfresh)
    as (Hcall & _ & Hslider).
  split; [| apply Hslider; reflexivity].
  simpl Product.id in Hcall. rewrite Hcall. reflexivity.
Defined.

End ProductFormFacts.
